(** * OctoPrintCommunicator: a shallow embedding of the fleet cycle

    The development follows the two Python modules of the repository:
    [octoprintcommunication.py] (the class [OctoPrintClient]) and
    [__main__.py] (the orchestration script).  Python objects are
    embedded as values of [PyVal]; every function with effects (HTTP
    requests, logging, printing, files) becomes a function in the monad
    [M], a state monad over [World] with Python exceptions as a second
    kind of result. *)

From stdpp Require Import base strings pretty list gmap.
From Stdlib Require Import Ascii String ZArith Lia.

Set Warnings "-register-all".
Local Open Scope Z_scope.

(** ** Python values *)

Module Py.

(** A Python [float].  Finite values are kept as exact decimals
    [(-1)^neg * m * 10^e]: the values that occur here come from decimal
    literals in JSON text and are only ever printed again.  For a
    literal of at most 15 significant digits inside the normal binary64
    range, CPython's [repr] of the parsed float is the shortest decimal
    of the same value, which is what [float_repr] computes. *)
Inductive pyfloat :=
| FNan
| FInf (neg : bool)
| FDec (neg : bool) (m : N) (e : Z).

(** The objects the program handles: [None], [bool], [int], [float],
    [str], [list], [dict] with string keys (in insertion order), and a
    bound method object (an attribute reference such as
    [opc.isPrinterConnected] that is not called). *)
Inductive PyVal :=
| PNone
| PBool (b : bool)
| PInt (z : Z)
| PFloat (f : pyfloat)
| PStr (s : string)
| PList (l : list PyVal)
| PDict (d : list (string * PyVal))
| PMethod (name : string).

(** Exception classes of [requests.exceptions] that [requests.get] and
    [requests.post] raise for a failed exchange.  In the library,
    [ConnectTimeout] derives from both [ConnectionError] and [Timeout];
    [ReadTimeout] derives from [Timeout] only. *)
Inductive requests_exn :=
| ConnectionError
| ConnectTimeout
| ProxyError
| SSLError
| ReadTimeout
| TooManyRedirects.

(** [isinstance(e, requests.exceptions.ConnectionError)]. *)
Definition is_ConnectionError (e : requests_exn) : bool :=
  match e with
  | ConnectionError | ConnectTimeout | ProxyError | SSLError => true
  | ReadTimeout | TooManyRedirects => false
  end.

(** Python exceptions that can leave a function of the program. *)
Inductive exn :=
| IndexError
| KeyError (key : string)
| TypeError
| AttributeError (name : string)
| JSONDecodeError
| CsvError
| RecursionError
| FileNotFoundError (path : string)
| RequestException (cls : requests_exn) (msg : string).

(** Truth value testing ([if x:], [not x]). *)
Definition truthy (v : PyVal) : bool :=
  match v with
  | PNone => false
  | PBool b => b
  | PInt z => negb (z =? 0)
  | PFloat (FDec _ m _) => negb (m =? 0)%N
  | PFloat _ => true
  | PStr s => negb (String.eqb s "")
  | PList l => match l with [] => false | _ => true end
  | PDict d => match d with [] => false | _ => true end
  | PMethod _ => true
  end.

(** [v == s] for a [str] literal [s]: only a [str] compares equal. *)
Definition eq_str (v : PyVal) (s : string) : bool :=
  match v with
  | PStr t => String.eqb t s
  | _ => false
  end.

(** [v[key]] for a [str] key: the value stored in a [dict], [KeyError]
    when the key is missing, [TypeError] on any other object. *)
Definition subscript (v : PyVal) (key : string) : exn + PyVal :=
  match v with
  | PDict d =>
      match list_find (fun kv => fst kv = key) d with
      | Some (_, (_, x)) => inr x
      | None => inl (KeyError key)
      end
  | _ => inl TypeError
  end.

(** [v[k1][k2]...] along a path of keys. *)
Fixpoint at_path (v : PyVal) (path : list string) : exn + PyVal :=
  match path with
  | [] => inr v
  | key :: path =>
      match subscript v key with
      | inr x => at_path x path
      | inl e => inl e
      end
  end.

(** *** Strings *)

Fixpoint replicate_char (n : nat) (c : ascii) : string :=
  match n with
  | O => ""
  | S n => String c (replicate_char n c)
  end.

Fixpoint contains_char (c : ascii) (s : string) : bool :=
  match s with
  | EmptyString => false
  | String d s => Ascii.eqb c d || contains_char c s
  end.

(** *** [repr] of a float *)

(** Drops the trailing ["0"] characters of a reversed digit string and
    counts them. *)
Fixpoint strip_zeros (rev_digits : list ascii) : list ascii * nat :=
  match rev_digits with
  | c :: r =>
      if Ascii.eqb c "0" then let '(d, k) := strip_zeros r in (d, S k)
      else (rev_digits, O)
  | [] => ([], O)
  end.

Definition pad2 (s : string) : string :=
  if (String.length s <? 2)%nat then "0" +:+ s else s.

(** [float_repr_style = 'short']: shortest digits [d1..dn] with the
    decimal point after [decpt] digits; scientific notation when
    [decpt <= -4] or [decpt > 16], [".0"] appended to an integral fixed
    form. *)
Definition float_repr (f : pyfloat) : string :=
  match f with
  | FNan => "nan"
  | FInf neg => if neg then "-inf" else "inf"
  | FDec neg m e =>
      let sign := if neg then "-" else "" in
      if (m =? 0)%N then sign +:+ "0.0" else
      let '(rd, k) := strip_zeros (rev (list_ascii_of_string (pretty m))) in
      let ds := rev rd in
      let n := Z.of_nat (List.length ds) in
      let decpt := n + e + Z.of_nat k in
      if (decpt <=? -4) || (16 <? decpt) then
        let x := decpt - 1 in
        let mant :=
          match ds with
          | [] => ""
          | [d] => String d ""
          | d :: tl => String d ("." +:+ string_of_list_ascii tl)
          end in
        sign +:+ mant +:+ "e" +:+ (if x <? 0 then "-" else "+")
             +:+ pad2 (pretty (Z.abs x))
      else if decpt <=? 0 then
        sign +:+ "0." +:+ replicate_char (Z.to_nat (- decpt)) "0"
             +:+ string_of_list_ascii ds
      else if decpt <? n then
        sign +:+ string_of_list_ascii (take (Z.to_nat decpt) ds) +:+ "."
             +:+ string_of_list_ascii (drop (Z.to_nat decpt) ds)
      else
        sign +:+ string_of_list_ascii ds
             +:+ replicate_char (Z.to_nat (decpt - n)) "0" +:+ ".0"
  end.

(** *** [repr] and [str] *)

Definition hex_digit (n : N) : ascii :=
  match n with
  | 10 => "a" | 11 => "b" | 12 => "c" | 13 => "d" | 14 => "e" | 15 => "f"
  | _ => pretty_N_char n
  end%N%char.

(** Body of [repr] of a [str] for the quote character [q].  Bytes from
    0x80 on (UTF-8 of non-ASCII text) are kept. *)
Fixpoint repr_str_body (q : ascii) (s : string) : string :=
  match s with
  | EmptyString => ""
  | String c s =>
      let n := N_of_ascii c in
      (if Ascii.eqb c "\" then "\\"
       else if Ascii.eqb c q then String "\" (String q "")
       else if (n =? 10)%N then "\n"
       else if (n =? 13)%N then "\r"
       else if (n =? 9)%N then "\t"
       else if (n <? 32)%N || (n =? 127)%N then
         "\x" +:+ String (hex_digit (n / 16)) (String (hex_digit (n mod 16)) "")
       else String c "") +:+ repr_str_body q s
  end.

Definition dquote : ascii := "034"%char.

Definition repr_str (s : string) : string :=
  let q : ascii :=
    if contains_char "'" s && negb (contains_char dquote s) then dquote
    else "'"%char in
  String q (repr_str_body q s +:+ String q "").

Fixpoint join (sep : string) (l : list string) : string :=
  match l with
  | [] => ""
  | [x] => x
  | x :: l => x +:+ sep +:+ join sep l
  end.

Fixpoint repr (v : PyVal) : string :=
  match v with
  | PNone => "None"
  | PBool b => if b then "True" else "False"
  | PInt z => pretty z
  | PFloat f => float_repr f
  | PStr s => repr_str s
  | PList l => "[" +:+ join ", " (map repr l) +:+ "]"
  | PDict d =>
      "{" +:+ join ", " (map (fun kv => repr_str (fst kv) +:+ ": " +:+ repr (snd kv)) d)
          +:+ "}"
  | PMethod name => "<bound method OctoPrintClient." +:+ name +:+ ">"
  end.

(** [str(v)]. *)
Definition str (v : PyVal) : string :=
  match v with
  | PStr s => s
  | _ => repr v
  end.

End Py.

(** ** [json.loads]

    The decoder of the standard library ([json.decoder], [json.scanner])
    for a [str] argument, with its default (strict) settings.  Text is a
    sequence of bytes (UTF-8); a [\uXXXX] escape is stored UTF-8
    encoded. *)

Module Json.
Import Py.

Definition is_ws (c : ascii) : bool :=
  let n := N_of_ascii c in
  (n =? 32)%N || (n =? 9)%N || (n =? 10)%N || (n =? 13)%N.

Fixpoint skip_ws (s : list ascii) : list ascii :=
  match s with
  | c :: r => if is_ws c then skip_ws r else s
  | [] => []
  end.

Definition digit_val (c : ascii) : option N :=
  let n := N_of_ascii c in
  if (48 <=? n)%N && (n <=? 57)%N then Some (n - 48)%N else None.

Definition hex_val (c : ascii) : option N :=
  let n := N_of_ascii c in
  if (48 <=? n)%N && (n <=? 57)%N then Some (n - 48)%N
  else if (65 <=? n)%N && (n <=? 70)%N then Some (n - 55)%N
  else if (97 <=? n)%N && (n <=? 102)%N then Some (n - 87)%N
  else None.

Definition hex4 (a b c d : ascii) : option N :=
  x ← hex_val a; y ← hex_val b; z ← hex_val c; w ← hex_val d;
  Some (((x * 16 + y) * 16 + z) * 16 + w)%N.

(** UTF-8 encoding of a code point (a lone surrogate is encoded like
    any other three-byte code point). *)
Definition utf8 (cp : N) : list ascii :=
  let b (n : N) := ascii_of_N n in
  if (cp <? 128)%N then [b cp]
  else if (cp <? 2048)%N then [b (192 + cp / 64); b (128 + cp mod 64)]%N
  else if (cp <? 65536)%N then
    [b (224 + cp / 4096); b (128 + (cp / 64) mod 64); b (128 + cp mod 64)]%N
  else
    [b (240 + cp / 262144); b (128 + (cp / 4096) mod 64);
     b (128 + (cp / 64) mod 64); b (128 + cp mod 64)]%N.

(** The one-character escapes of [BACKSLASH]. *)
Definition unescape (c : ascii) : option ascii :=
  match c with
  | "034" => Some "034"
  | "\" => Some "\"
  | "/" => Some "/"
  | "b" => Some "008"
  | "f" => Some "012"
  | "n" => Some "010"
  | "r" => Some "013"
  | "t" => Some "009"
  | _ => None
  end%char.

(** [scanstring]: the text after an opening quote, up to and including
    the closing quote. *)
Fixpoint scanstring (s : list ascii) : option (list ascii * list ascii) :=
  match s with
  | [] => None
  | c :: r =>
      if Ascii.eqb c dquote then Some ([], r)
      else if Ascii.eqb c "\" then
        match r with
        | "u"%char :: h1 :: h2 :: h3 :: h4 :: r1 =>
            cp ← hex4 h1 h2 h3 h4;
            match r1 with
            | "\"%char :: "u"%char :: l1 :: l2 :: l3 :: l4 :: r2 =>
                lo ← hex4 l1 l2 l3 l4;
                if (55296 <=? cp)%N && (cp <? 56320)%N
                   && (56320 <=? lo)%N && (lo <? 57344)%N then
                  '(t, rest) ← scanstring r2;
                  Some ((utf8 (65536 + (cp - 55296) * 1024 + (lo - 56320))%N ++ t)%list, rest)
                else
                  '(t, rest) ← scanstring r1;
                  Some ((utf8 cp ++ t)%list, rest)
            | _ =>
                '(t, rest) ← scanstring r1;
                Some ((utf8 cp ++ t)%list, rest)
            end
        | e :: r1 =>
            ch ← unescape e;
            '(t, rest) ← scanstring r1;
            Some (ch :: t, rest)
        | [] => None
        end
      else if (N_of_ascii c <? 32)%N then None
      else
        '(t, rest) ← scanstring r;
        Some (c :: t, rest)
  end.

(** Longest prefix of decimal digits, as a number and a count. *)
Fixpoint digits (acc : N) (k : nat) (s : list ascii) : N * nat * list ascii :=
  match s with
  | c :: r =>
      match digit_val c with
      | Some d => digits (acc * 10 + d)%N (S k) r
      | None => (acc, k, s)
      end
  | [] => (acc, k, [])
  end.

(** [NUMBER_RE]: after an optional minus sign, [0] or a digit string
    that does not start with [0]; a fraction only when a digit follows
    the point; an exponent only when a digit follows the optional sign.
    A number with a fraction or an exponent is a [float]. *)
Definition match_number (s : list ascii) : option (PyVal * list ascii) :=
  let '(neg, s1) :=
    match s with
    | "-"%char :: r => (true, r)
    | _ => (false, s)
    end in
  match s1 with
  | [] => None
  | c :: r =>
      match digit_val c with
      | None => None
      | Some d =>
          let '(ip, _, s2) := if (d =? 0)%N then (0%N, O, r) else digits d 1 r in
          let '(fm, fk, s3, has_frac) :=
            match s2 with
            | "."%char :: f :: r2 =>
                match digit_val f with
                | Some _ => let '(m, k, r3) := digits ip O (f :: r2) in (m, k, r3, true)
                | None => (ip, O, s2, false)
                end
            | _ => (ip, O, s2, false)
            end in
          let exponent (neg_e : bool) (r3 : list ascii) :=
            let '(x, _, r4) := digits 0 O r3 in
            (Some (if neg_e then - Z.of_N x else Z.of_N x), r4) in
          let '(ex, s4) :=
            match s3 with
            | e :: r3 =>
                if Ascii.eqb e "e" || Ascii.eqb e "E" then
                  match r3 with
                  | sg :: g :: r4 =>
                      if (Ascii.eqb sg "+" || Ascii.eqb sg "-")
                         && bool_decide (is_Some (digit_val g))
                      then exponent (Ascii.eqb sg "-") (g :: r4)
                      else if bool_decide (is_Some (digit_val sg))
                      then exponent false r3
                      else (None, s3)
                  | [g] =>
                      if bool_decide (is_Some (digit_val g))
                      then exponent false r3 else (None, s3)
                  | [] => (None, s3)
                  end
                else (None, s3)
            | [] => (None, s3)
            end in
          match has_frac, ex with
          | false, None =>
              Some (PInt (if neg then - Z.of_N ip else Z.of_N ip), s4)
          | _, _ =>
              Some (PFloat (FDec neg fm (default 0 ex - Z.of_nat fk)), s4)
          end
      end
  end.

(** Strips a literal prefix. *)
Fixpoint expect (lit : list ascii) (s : list ascii) : option (list ascii) :=
  match lit, s with
  | [], _ => Some s
  | a :: lit, b :: s => if Ascii.eqb a b then expect lit s else None
  | _ :: _, [] => None
  end.

(** [d[k] = v] on an insertion-ordered dict. *)
Fixpoint dict_set (d : list (string * PyVal)) (k : string) (v : PyVal) :
    list (string * PyVal) :=
  match d with
  | [] => [(k, v)]
  | (k', v') :: d => if String.eqb k' k then (k', v) :: d else (k', v') :: dict_set d k v
  end.

Inductive outcome (A : Type) :=
| Parsed (a : A) (rest : list ascii)
| Invalid
| TooDeep.
Arguments Parsed {A}.
Arguments Invalid {A}.
Arguments TooDeep {A}.

Definition of_option {A} (o : option (A * list ascii)) : outcome A :=
  match o with
  | Some (a, r) => Parsed a r
  | None => Invalid
  end.

(** [scan_once], with [JSONObject] and [JSONArray] unfolded into it:
    [members d] and [elements l] are the loops of the two after a key
    or an element is due.  [fuel] bounds the depth of calls. *)
Fixpoint scan_once (fuel : nat) (s : list ascii) : outcome PyVal :=
  match fuel with
  | O => TooDeep
  | S fuel =>
      let fix members (fuel' : nat) (d : list (string * PyVal)) (s : list ascii)
          {struct fuel'} : outcome PyVal :=
        match fuel' with
        | O => TooDeep
        | S fuel' =>
            match s with
            | "034"%char :: r =>
                match scanstring r with
                | None => Invalid
                | Some (k, r1) =>
                    match skip_ws r1 with
                    | ":"%char :: r2 =>
                        match scan_once fuel (skip_ws r2) with
                        | Parsed v r3 =>
                            let d' := dict_set d (string_of_list_ascii k) v in
                            match skip_ws r3 with
                            | "}"%char :: r4 => Parsed (PDict d') r4
                            | ","%char :: r4 => members fuel' d' (skip_ws r4)
                            | _ => Invalid
                            end
                        | Invalid => Invalid
                        | TooDeep => TooDeep
                        end
                    | _ => Invalid
                    end
                end
            | _ => Invalid
            end
        end in
      let fix elements (fuel' : nat) (l : list PyVal) (s : list ascii)
          {struct fuel'} : outcome PyVal :=
        match fuel' with
        | O => TooDeep
        | S fuel' =>
            match scan_once fuel s with
            | Parsed v r1 =>
                match skip_ws r1 with
                | "]"%char :: r2 => Parsed (PList (l ++ [v])%list) r2
                | ","%char :: r2 => elements fuel' (l ++ [v])%list (skip_ws r2)
                | _ => Invalid
                end
            | Invalid => Invalid
            | TooDeep => TooDeep
            end
        end in
      match s with
      | "034"%char :: r =>
          of_option ('(t, rest) ← scanstring r; Some (PStr (string_of_list_ascii t), rest))
      | "{"%char :: r =>
          match skip_ws r with
          | "}"%char :: r1 => Parsed (PDict []) r1
          | s1 => members (S (List.length s1)) [] s1
          end
      | "["%char :: r =>
          match skip_ws r with
          | "]"%char :: r1 => Parsed (PList []) r1
          | s1 => elements (S (List.length s1)) [] s1
          end
      | "n"%char :: _ => of_option (r ← expect (list_ascii_of_string "null") s; Some (PNone, r))
      | "t"%char :: _ => of_option (r ← expect (list_ascii_of_string "true") s; Some (PBool true, r))
      | "f"%char :: _ => of_option (r ← expect (list_ascii_of_string "false") s; Some (PBool false, r))
      | "N"%char :: _ => of_option (r ← expect (list_ascii_of_string "NaN") s; Some (PFloat FNan, r))
      | "I"%char :: _ =>
          of_option (r ← expect (list_ascii_of_string "Infinity") s; Some (PFloat (FInf false), r))
      | "-"%char :: "I"%char :: _ =>
          of_option (r ← expect (list_ascii_of_string "-Infinity") s; Some (PFloat (FInf true), r))
      | _ => of_option (match_number s)
      end
  end.

(** [json.loads(s)] for a [str]: one value between optional whitespace,
    nothing after it.  Nesting deeper than the text is long cannot
    occur, so [RecursionError] stands for the interpreter's own limit
    only. *)
Definition loads (text : string) : exn + PyVal :=
  let s := list_ascii_of_string text in
  match scan_once (S (List.length s)) (skip_ws s) with
  | Parsed v rest =>
      match skip_ws rest with
      | [] => inr v
      | _ => inl JSONDecodeError
      end
  | Invalid => inl JSONDecodeError
  | TooDeep => inl RecursionError
  end.

End Json.

(** ** [csv.reader]

    The reader of the [_csv] module with the default dialect [excel]:
    delimiter [,], quote character, [doublequote], no escape character,
    not strict.  Lines come from a file opened in text mode (universal
    newlines). *)

Module Csv.
Import Py.

Inductive state :=
| START_RECORD
| START_FIELD
| IN_FIELD
| IN_QUOTED_FIELD
| QUOTE_IN_QUOTED_FIELD
| EAT_CRNL.

(** The field being collected (last character first) and the fields
    of the record so far (last field first). *)
Record reader := {
  st : state;
  field : list ascii;
  fields : list string;
}.

Definition parse_reset : reader :=
  {| st := START_RECORD; field := []; fields := [] |}.

Definition field_limit : N := 131072.

Definition parse_add_char (r : reader) (c : ascii) (next : state) : exn + reader :=
  if (field_limit <=? N.of_nat (List.length (field r)))%N then inl CsvError
  else inr {| st := next; field := c :: field r; fields := fields r |}.

Definition parse_save_field (r : reader) (next : state) : reader :=
  {| st := next; field := [];
     fields := string_of_list_ascii (rev (field r)) :: fields r |}.

Definition is_nl (c : ascii) : bool :=
  (N_of_ascii c =? 10)%N || (N_of_ascii c =? 13)%N.

(** [parse_process_char]; [None] is the end-of-line marker that the
    reader feeds after the characters of each line. *)
Definition parse_process_char (r : reader) (c : option ascii) : exn + reader :=
  let after_field := match c with None => START_RECORD | Some _ => EAT_CRNL end in
  let is_end := match c with None => true | Some ch => is_nl ch end in
  let start_field :=
    if is_end then inr (parse_save_field r after_field)
    else match c with
         | Some ch =>
             if Ascii.eqb ch dquote then
               inr {| st := IN_QUOTED_FIELD; field := field r; fields := fields r |}
             else if Ascii.eqb ch "," then inr (parse_save_field r START_FIELD)
             else parse_add_char r ch IN_FIELD
         | None => inr r
         end in
  match st r with
  | START_RECORD =>
      match c with
      | None => inr r
      | Some ch =>
          if is_nl ch then inr {| st := EAT_CRNL; field := field r; fields := fields r |}
          else start_field
      end
  | START_FIELD => start_field
  | IN_FIELD =>
      if is_end then inr (parse_save_field r after_field)
      else match c with
           | Some ch =>
               if Ascii.eqb ch "," then inr (parse_save_field r START_FIELD)
               else parse_add_char r ch IN_FIELD
           | None => inr r
           end
  | IN_QUOTED_FIELD =>
      match c with
      | None => inr r
      | Some ch =>
          if Ascii.eqb ch dquote then
            inr {| st := QUOTE_IN_QUOTED_FIELD; field := field r; fields := fields r |}
          else parse_add_char r ch IN_QUOTED_FIELD
      end
  | QUOTE_IN_QUOTED_FIELD =>
      match c with
      | Some ch =>
          if Ascii.eqb ch dquote then parse_add_char r ch IN_QUOTED_FIELD
          else if Ascii.eqb ch "," then inr (parse_save_field r START_FIELD)
          else if is_nl ch then inr (parse_save_field r after_field)
          else parse_add_char r ch IN_FIELD
      | None => inr (parse_save_field r after_field)
      end
  | EAT_CRNL =>
      match c with
      | None => inr {| st := START_RECORD; field := field r; fields := fields r |}
      | Some ch => if is_nl ch then inr r else inl CsvError
      end
  end.

Fixpoint process_line (r : reader) (line : list ascii) : exn + reader :=
  match line with
  | [] => parse_process_char r None
  | c :: line =>
      match parse_process_char r (Some c) with
      | inr r' => process_line r' line
      | inl e => inl e
      end
  end.

(** [Reader_iternext], repeated until the lines run out: a record ends
    when a line leaves the reader in [START_RECORD]; text that ends
    inside a quoted field still gives a last record. *)
Fixpoint records (r : reader) (lines : list (list ascii)) : exn + list (list string) :=
  match lines with
  | [] =>
      match field r, st r with
      | [], START_RECORD | [], START_FIELD | [], IN_FIELD
      | [], QUOTE_IN_QUOTED_FIELD | [], EAT_CRNL => inr []
      | _, _ => inr [rev (fields (parse_save_field r START_RECORD))]
      end
  | line :: lines =>
      match process_line r line with
      | inl e => inl e
      | inr r' =>
          match st r' with
          | START_RECORD =>
              match records parse_reset lines with
              | inr rows => inr (rev (fields r') :: rows)
              | inl e => inl e
              end
          | _ => records r' lines
          end
      end
  end.

(** The lines a text-mode file yields: [\r\n] and [\r] become [\n],
    and every line but possibly the last ends in [\n]. *)
Fixpoint text_lines (cur : list ascii) (s : list ascii) : list (list ascii) :=
  let nl := "010"%char in
  match s with
  | [] => match cur with [] => [] | _ => [rev cur] end
  | "013"%char :: "010"%char :: s' => rev (nl :: cur) :: text_lines [] s'
  | "013"%char :: s' => rev (nl :: cur) :: text_lines [] s'
  | "010"%char :: s' => rev (nl :: cur) :: text_lines [] s'
  | c :: s' => text_lines (c :: cur) s'
  end.

(** [list(csv.reader(csvfile))] on a file with the given content. *)
Definition reader_list (content : string) : exn + list (list string) :=
  records parse_reset (text_lines [] (list_ascii_of_string content)).

End Csv.

(** ** The world outside the interpreter *)

Inductive method := GET | POST.

(** The arguments of one call of [requests.get] or [requests.post]. *)
Record Request := {
  rq_method : method;
  rq_url : string;
  rq_headers : list (string * string);
  rq_json : option (list (string * string));
  rq_timeout : Z;
}.

(** What the program reads of a [requests.Response]. *)
Record Response := {
  status_code : Z;
  text : string;
}.

(** A call of [requests.get] or [requests.post] returns a response or
    raises one of the library's exceptions. *)
Inductive Outcome :=
| Responds (r : Response)
| Fails (cls : Py.requests_exn) (msg : string).

(** [net] is the fleet of controllers: what a request meets, given the
    requests made before it.  The rest is what the program leaves
    behind: the requests it made (oldest first), the records of the
    error log, the lines printed, and the files by path.  Writes reach
    the file at once; the directory [PrinterStatus] exists. *)
Record World := {
  net : list Request → Request → Outcome;
  sent : list Request;
  log : list string;
  stdout : list string;
  files : gmap string string;
}.

(** ** The monad of Python code: state and exceptions *)

Inductive Result (A : Type) :=
| Ret (a : A)
| Raise (e : Py.exn).
Arguments Ret {A}.
Arguments Raise {A}.

Definition M (A : Type) : Type := World → Result A * World.

Definition ret {A} (a : A) : M A := fun w => (Ret a, w).

Definition raise {A} (e : Py.exn) : M A := fun w => (Raise e, w).

Definition bind {A B} (c : M A) (k : A → M B) : M B :=
  fun w =>
    match c w with
    | (Ret a, w') => k a w'
    | (Raise e, w') => (Raise e, w')
    end.

Declare Scope py_scope.
Delimit Scope py_scope with py.
Notation "x <- c ;; k" := (bind c (fun x => k))
  (at level 100, c at next level, right associativity) : py_scope.
Notation "c ;; k" := (bind c (fun _ => k))
  (at level 100, right associativity) : py_scope.
Local Open Scope py_scope.

(** [try: c  except ConnectionError as e: h e], where [h] gets
    [str(e)]. *)
Definition except_ConnectionError {A} (c : M A) (h : string → M A) : M A :=
  fun w =>
    match c w with
    | (Raise (Py.RequestException cls msg), w') =>
        if Py.is_ConnectionError cls then h msg w'
        else (Raise (Py.RequestException cls msg), w')
    | res => res
    end.

Definition lift {A} (r : Py.exn + A) : M A :=
  match r with
  | inr a => ret a
  | inl e => raise e
  end.

(** [for i, x in enumerate(l): body], counting from [i]. *)
Fixpoint for_enumerate {A} (i : nat) (l : list A) (body : nat → A → M unit) : M unit :=
  match l with
  | [] => ret tt
  | x :: l => body i x ;; for_enumerate (S i) l body
  end.

(** [print(s)]; the call evaluates to [None]. *)
Definition print (s : string) : M Py.PyVal :=
  fun w =>
    (Ret Py.PNone,
     {| net := net w; sent := sent w; log := log w;
        stdout := stdout w ++ [s]; files := files w |}).

(** [logger.error(v)]: one record, with [str(v)] as its message; the
    call evaluates to [None]. *)
Definition logger_error (v : Py.PyVal) : M Py.PyVal :=
  fun w =>
    (Ret Py.PNone,
     {| net := net w; sent := sent w; log := log w ++ [Py.str v];
        stdout := stdout w; files := files w |}).

(** [requests.get] and [requests.post]. *)
Definition requests_call (rq : Request) : M Response :=
  fun w =>
    let w' := {| net := net w; sent := sent w ++ [rq]; log := log w;
                 stdout := stdout w; files := files w |} in
    match net w (sent w) rq with
    | Responds r => (Ret r, w')
    | Fails cls msg => (Raise (Py.RequestException cls msg), w')
    end.

(** [open(path, 'w+')]: the file is created or emptied. *)
Definition open_w (path : string) : M unit :=
  fun w =>
    (Ret tt,
     {| net := net w; sent := sent w; log := log w; stdout := stdout w;
        files := <[path := ""]> (files w) |}).

(** [f.write(s)] on the file opened at [path]. *)
Definition write (path : string) (s : string) : M unit :=
  fun w =>
    (Ret tt,
     {| net := net w; sent := sent w; log := log w; stdout := stdout w;
        files := <[path := default "" (files w !! path) +:+ s]> (files w) |}).

(** [open(path, 'r')] and reading all of the file. *)
Definition open_r (path : string) : M string :=
  fun w =>
    match files w !! path with
    | Some content => (Ret content, w)
    | None => (Raise (Py.FileNotFoundError path), w)
    end.

(** [v[key]] for a [str] key. *)
Definition getitem (v : Py.PyVal) (key : string) : M Py.PyVal :=
  lift (Py.subscript v key).

(** [l[i]] on a list. *)
Definition index {A} (l : list A) (i : nat) : M A :=
  match l !! i with
  | Some x => ret x
  | None => raise Py.IndexError
  end.

(** [json.loads(v)]: [TypeError] for an argument that is not text. *)
Definition json_loads (v : Py.PyVal) : M Py.PyVal :=
  match v with
  | Py.PStr s => lift (Json.loads s)
  | _ => raise Py.TypeError
  end.

(** [a + b] where [a] is a [str]. *)
Definition str_add (a : string) (b : Py.PyVal) : M string :=
  match b with
  | Py.PStr s => ret (a +:+ s)
  | _ => raise Py.TypeError
  end.

Definition nl : string := String "010"%char "".

(** ** [octoprintcommunication.py] *)

Module OctoPrintClient.
Import Py.

(** One client per printer; the fields [__init__] stores. *)
Record t := {
  ipAddress : string;
  apiKey : string;
  username : string;
  password : string;
}.

(** [get(self, url, headers=None, timeout=1)]: a response object, or
    [None] after a [ConnectionError]. *)
Definition get (self : t) (url : string) (headers : list (string * string)) :
    M (option Response) :=
  except_ConnectionError
    (r <- requests_call {| rq_method := GET; rq_url := url; rq_headers := headers;
                           rq_json := None; rq_timeout := 1 |} ;;
     ret (Some r))
    (fun e =>
       logged <- logger_error (PStr "Cannot connect to Raspberry Pi") ;;
       print (str logged) ;;
       logger_error (PStr e) ;;
       ret None).

(** [post(self, url, headers=None, data=None, json=None, timeout=1)]. *)
Definition post (self : t) (url : string) (headers : list (string * string))
    (json : option (list (string * string))) : M (option Response) :=
  except_ConnectionError
    (r <- requests_call {| rq_method := POST; rq_url := url; rq_headers := headers;
                           rq_json := json; rq_timeout := 1 |} ;;
     ret (Some r))
    (fun e =>
       logger_error (PStr "Cannot connect to Raspberry Pi") ;;
       logger_error (PStr e) ;;
       ret None).

(** [printDebugInfo]: four lines on the console. *)
Definition printDebugInfo (self : t) : M PyVal :=
  print ("IP: " +:+ ipAddress self +:+ ", ") ;;
  print ("API key: " +:+ apiKey self +:+ ", ") ;;
  print ("Username: " +:+ username self +:+ ", ") ;;
  print ("Password: " +:+ password self +:+ ", ").

(** [login]: the call [self.post(url, json=json)] passes no headers. *)
Definition login (self : t) : M PyVal :=
  let url := "http://" +:+ ipAddress self +:+ "/api/login" in
  let json := [("user", username self); ("pass", password self)] in
  r <- post self url [] (Some json) ;;
  match r with
  | Some r => ret (PStr (text r))
  | None =>
      logger_error (PStr (ipAddress self +:+ " Login response: No connection to Pi")) ;;
      ret PNone
  end.

Definition logout (self : t) : M PyVal :=
  let url := "http://" +:+ ipAddress self +:+ "/api/logout" in
  r <- post self url [] None ;;
  match r with
  | Some r => ret (PStr (text r))
  | None =>
      logger_error (PStr (ipAddress self +:+ " Logout response: No connection to Pi")) ;;
      ret PNone
  end.

Definition connectToPrinter (self : t) : M PyVal :=
  let url := "http://" +:+ ipAddress self +:+ "/api/connection" in
  let headers := [("Content-Type", "application/json"); ("X-Api-Key", apiKey self)] in
  let json := [("command", "connect")] in
  r <- post self url headers (Some json) ;;
  match r with
  | Some r => ret (PInt (status_code r))
  | None =>
      logger_error (PStr (ipAddress self +:+ " ConnectToPrinter response: No connection to Pi")) ;;
      ret PNone
  end.

Definition disconnectFromPrinter (self : t) : M PyVal :=
  let url := "http://" +:+ ipAddress self +:+ "/api/connection" in
  let headers := [("Content-Type", "application/json"); ("X-Api-Key", apiKey self)] in
  let json := [("command", "disconnect")] in
  r <- post self url headers (Some json) ;;
  match r with
  | Some r => ret (PInt (status_code r))
  | None =>
      logger_error
        (PStr (ipAddress self +:+ " DisconnectFromPrinter response: No connection to Pi")) ;;
      ret PNone
  end.

(** [True] if connected, [False] if not, [None] if the Pi cannot be
    reached. *)
Definition isPrinterConnected (self : t) : M PyVal :=
  let url := "http://" +:+ ipAddress self +:+ "/api/connection" in
  let headers := [("X-Api-Key", apiKey self)] in
  r <- get self url headers ;;
  match r with
  | Some r =>
      rJson <- json_loads (PStr (text r)) ;;
      current <- getitem rJson "current" ;;
      state <- getitem current "state" ;;
      if eq_str state "Operational" then ret (PBool true) else ret (PBool false)
  | None =>
      logger_error (PStr (ipAddress self +:+ " isPrinterConnected response: No connection to Pi")) ;;
      ret PNone
  end.

Definition getPrinterStatus (self : t) : M PyVal :=
  let url := "http://" +:+ ipAddress self +:+ "/api/printer" in
  let headers := [("X-Api-Key", apiKey self)] in
  print ("Accessing " +:+ url +:+ " using API Key " +:+ apiKey self) ;;
  r <- get self url headers ;;
  match r with
  | Some r =>
      rJson <- json_loads (PStr (text r)) ;;
      if String.eqb (text r) "Printer is not operational" then
        printed <- print ("Printer " +:+ ipAddress self +:+ " is not operational") ;;
        logger_error printed ;;
        ret PNone
      else ret (PStr (text r))
  | None =>
      logger_error (PStr (ipAddress self +:+ " getPrinterStatus response: No connection to Pi")) ;;
      ret PNone
  end.

Definition getCurrentPrintJob (self : t) : M PyVal :=
  let url := "http://" +:+ ipAddress self +:+ "/api/job" in
  let headers := [("X-Api-Key", apiKey self)] in
  r <- get self url headers ;;
  match r with
  | Some r => ret (PStr (text r))
  | None =>
      logger_error
        (PStr (ipAddress self +:+ " getCurrentPrintJob response: No connection to Pi")) ;;
      ret PNone
  end.

Definition selectPrintJob (self : t) (gcodePath : PyVal) : M PyVal :=
  url <- str_add ("http://" +:+ ipAddress self) gcodePath ;;
  let headers := [("Content-Type", "application/json"); ("X-Api-Key", apiKey self)] in
  let json := [("command", "select")] in
  r <- post self url headers (Some json) ;;
  match r with
  | Some r => ret (PStr (text r))
  | None => ret PNone
  end.

Definition startPrintJob (self : t) : M PyVal :=
  let url := "http://" +:+ ipAddress self +:+ "/api/job" in
  let headers := [("Content-Type", "application/json"); ("X-Api-Key", apiKey self)] in
  let json := [("command", "start")] in
  r <- post self url headers (Some json) ;;
  match r with
  | Some r => ret (PStr (text r))
  | None =>
      connected <- isPrinterConnected self ;;
      (if truthy connected then
         logger_error (PStr (ipAddress self +:+ " startPrintJob response: "
                             +:+ "Could not start print job. Printer might be busy"))
       else
         logger_error (PStr (ipAddress self +:+ " startPrintJob response: "
                             +:+ " Could not start print job. No connection to Pi"))) ;;
      ret PNone
  end.

End OctoPrintClient.

(** ** [__main__.py] *)

Module Main.
Import Py OctoPrintClient.

Section Script.

(** [config.ini]: the [Verbose] setting and the path of the command
    file. *)
Variable verbose : bool.
Variable path_PrinterCommands : string.

(** [pandas.read_csv(path, sep=, header=)] on the content of the file:
    the columns by name, or the exception it raises. *)
Variable pandas_read_csv : string → ascii → nat → exn + list (string * list PyVal).

(** The choice [csv.Sniffer().sniff] makes on a sample that is not
    empty. *)
Variable sniff_sample : string → exn + ascii.

(** [csv.Sniffer().sniff(sample)]: on an empty sample neither of its
    two guesses finds a delimiter and it raises [csv.Error]. *)
Definition Sniffer_sniff (sample : string) : exn + ascii :=
  if String.eqb sample "" then inl CsvError else sniff_sample sample.

(** [csvfile.read(n)] on what is left unread of a file. *)
Definition read (n : nat) (unread : string) : string :=
  string_of_list_ascii (take n (list_ascii_of_string unread)).

(** The path of the device list in [config.ini]. *)
Variable path_ListOfPrinters : string.

(** [pandas.read_csv] on the device list.  Its cells are text, which
    is what the fields of a client hold. *)
Variable pandas_read_text : string → ascii → nat → exn + list (string * list string).

(** [str(e)] for an exception object. *)
Variable exn_str : exn → string.

(** [dataframe.name] of the device list, as a list. *)
Definition text_column (dataframe : list (string * list string)) (name : string) :
    M (list string) :=
  match list_find (fun kv => fst kv = name) dataframe with
  | Some (_, (_, values)) => ret values
  | None => raise (AttributeError name)
  end.

(** The loop [for i in range(len(ipList))] of [importPrinterList] over
    the positions [range]: every round appends one client to the
    registry; an index past the end of a list ends the loop with what
    has been appended so far. *)
Fixpoint append_clients (range : list nat)
    (ipList apiList usernameList passwordList : list string) (opcs : list t) :
    Result unit * list t :=
  match range with
  | [] => (Ret tt, opcs)
  | i :: range =>
      match ipList !! i, apiList !! i, usernameList !! i, passwordList !! i with
      | Some ip, Some api, Some user, Some pass =>
          append_clients range ipList apiList usernameList passwordList
            (opcs ++ [{| ipAddress := ip; apiKey := api; username := user;
                         password := pass |}])
      | _, _, _, _ => (Raise IndexError, opcs)
      end
  end.

(** [importPrinterList], with the global registry [opcs] passed in and
    returned.  The whole body is inside [try], and the handler takes
    every exception: it logs the exception, prints a hint and logs the
    [None] that [print] returns. *)
Definition importPrinterList (opcs : list t) : M (list t) :=
  let handler (e : exn) (opcs : list t) : M (list t) :=
    logger_error (PStr (exn_str e)) ;;
    printed <- print "ListOfPrinters.csv may be missing or of invalid format" ;;
    logger_error printed ;;
    ret opcs in
  fun w =>
    match
      (content <- open_r path_ListOfPrinters ;;
       delimiter <- lift (Sniffer_sniff (read 1024 content)) ;;
       let header := 0%nat in
       content <- open_r path_ListOfPrinters ;;
       dataframe <- lift (pandas_read_text content delimiter header) ;;
       ipList <- text_column dataframe "ipAddress" ;;
       apiList <- text_column dataframe "apiKey" ;;
       usernameList <- text_column dataframe "username" ;;
       passwordList <- text_column dataframe "password" ;;
       ret (ipList, apiList, usernameList, passwordList)) w
    with
    | (Ret (ipList, apiList, usernameList, passwordList), w') =>
        match append_clients (seq 0 (List.length ipList))
                ipList apiList usernameList passwordList opcs with
        | (Ret _, opcs') => (Ret opcs', w')
        | (Raise e, opcs') => handler e opcs' w'
        end
    | (Raise e, w') => handler e opcs w'
    end.

(** The condition is [not opc.isPrinterConnected]: the attribute is
    referenced, not called, so what is tested is the bound method
    object. *)
Definition connectToPrinters (opcs : list t) : M unit :=
  for_enumerate 0 opcs (fun i opc =>
    if negb (truthy (PMethod "isPrinterConnected")) then
      response <- connectToPrinter opc ;;
      print ("HTTP " +:+ str response) ;;
      ret tt
    else ret tt).

Definition opcStatusFields : string :=
  "IP;Connected;Printing;Ready;Operational;Pausing;Paused;Finishing;NozzleTemp;BedTemp" +:+ nl.

Definition path_statusCsv : string := "PrinterStatus/PrinterStatus.csv".

Definition path_statusTxt (i : nat) : string :=
  "PrinterStatus/" +:+ "printer" +:+ str (PInt (Z.of_nat i)) +:+ ".txt".

(** [str(opcSJ[a][b][c])]. *)
Definition str_at (opcSJ : PyVal) (a b c : string) : M string :=
  x <- getitem opcSJ a ;;
  y <- getitem x b ;;
  z <- getitem y c ;;
  ret (str z).

(** The two branches of the loop body of [updatePrinterStatus]: the
    values of [opcStatus] and [opcStatusString] for a client and the
    result of its poll. *)
Definition opcStatusString (opc : t) (printerIsConnected : PyVal) : M (PyVal * string) :=
  if truthy printerIsConnected then
    opcStatus <- getPrinterStatus opc ;;
    opcSJ <- json_loads opcStatus ;;
    printing <- str_at opcSJ "state" "flags" "printing" ;;
    ready <- str_at opcSJ "state" "flags" "ready" ;;
    operational <- str_at opcSJ "state" "flags" "operational" ;;
    pausing <- str_at opcSJ "state" "flags" "pausing" ;;
    paused <- str_at opcSJ "state" "flags" "paused" ;;
    finishing <- str_at opcSJ "state" "flags" "finishing" ;;
    bed <- str_at opcSJ "temperature" "bed" "actual" ;;
    tool0 <- str_at opcSJ "temperature" "tool0" "actual" ;;
    ret (opcStatus,
         ipAddress opc +:+ ";" +:+
         str printerIsConnected +:+ ";" +:+
         printing +:+ ";" +:+
         ready +:+ ";" +:+
         operational +:+ ";" +:+
         pausing +:+ ";" +:+
         paused +:+ ";" +:+
         finishing +:+ ";" +:+
         bed +:+ ";" +:+
         tool0)
  else
    ret (PStr "Not connected to Pi!",
         ipAddress opc +:+ ";" +:+
         str printerIsConnected +:+ ";" +:+
         ";" +:+
         ";" +:+
         ";" +:+
         ";" +:+
         ";" +:+
         ";" +:+
         ";").

(** The body of the loop of [updatePrinterStatus], for the client
    [opc] at position [i]. *)
Definition updatePrinterStatus_body (i : nat) (opc : t) : M unit :=
  printerIsConnected <- isPrinterConnected opc ;;
  status <- opcStatusString opc printerIsConnected ;;
  let '(opcStatus, opcStatusString) := status in
  write path_statusCsv (opcStatusString +:+ nl) ;;
  open_w (path_statusTxt i) ;;
  write (path_statusTxt i) (opcStatusFields +:+ opcStatusString) ;;
  (if verbose then
     line <- str_add (ipAddress opc +:+ " printer status: ") opcStatus ;;
     print line ;;
     ret tt
   else ret tt).

(** The aggregate file stays open over the loop and is closed after
    it; as writes reach the file at once, [close] has nothing left to
    do here. *)
Definition updatePrinterStatus (opcs : list t) : M unit :=
  open_w path_statusCsv ;;
  write path_statusCsv opcStatusFields ;;
  for_enumerate 0 opcs updatePrinterStatus_body.

(** [dataframe.name] as a list. *)
Definition column (dataframe : list (string * list PyVal)) (name : string) : M (list PyVal) :=
  match list_find (fun kv => fst kv = name) dataframe with
  | Some (_, (_, values)) => ret values
  | None => raise (AttributeError name)
  end.

(** [list(csvData)] reads the file to its end, so nothing is left
    [unread] when the third branch samples the file for the sniffer. *)
Definition getCommandList : M (list (list PyVal)) :=
  content <- open_r path_PrinterCommands ;;
  csvDataList <- lift (Csv.reader_list content) ;;
  let unread := "" in
  (if verbose then
     row <- index csvDataList 0 ;;
     cell <- index row 0 ;;
     print ("First row in command CSV: " +:+ " " +:+ cell) ;;
     ret tt
   else ret tt) ;;
  row <- index csvDataList 0 ;;
  cell <- index row 0 ;;
  format <-
    (if String.eqb cell "sep=;" then ret (";"%char, 1%nat)
     else
       row <- index csvDataList 0 ;;
       cell <- index row 0 ;;
       if String.eqb cell "sep=," then ret (","%char, 1%nat)
       else
         delimiter <- lift (Sniffer_sniff (read 1024 unread)) ;;
         ret (delimiter, 0%nat)) ;;
  let '(delimiter, header) := format in
  content <- open_r path_PrinterCommands ;;
  dataframe <- lift (pandas_read_csv content delimiter header) ;;
  ipList <- column dataframe "IP_Address" ;;
  commandList <- column dataframe "Command" ;;
  argumentList <- column dataframe "Argument" ;;
  let outputList := [ipList; commandList; argumentList] in
  ret outputList.

(** The loop of the main script under [# Parse and run commands].
    Its first condition is the attribute reference
    [opc.isPrinterConnected] again. *)
Definition run_commands (opcs : list t) (commandList : list (list PyVal)) : M unit :=
  for_enumerate 0 opcs (fun i opc =>
    if truthy (PMethod "isPrinterConnected") then
      ips <- index commandList 0 ;;
      ip <- index ips i ;;
      if eq_str ip (ipAddress opc) then
        commands <- index commandList 1 ;;
        command <- index commands i ;;
        if eq_str command "print" then
          arguments <- index commandList 2 ;;
          argument <- index arguments i ;;
          selectPrintJob opc argument ;;
          startPrintJob opc ;;
          ret tt
        else ret tt
      else ret tt
    else ret tt).

(** The main script, once [importPrinterList] has filled [opcs]; the
    [sleep(10)] between the first two phases changes nothing that is
    modelled. *)
Definition main (opcs : list t) : M unit :=
  connectToPrinters opcs ;;
  updatePrinterStatus opcs ;;
  commandList <- getCommandList ;;
  run_commands opcs commandList.

(** The whole script, started with an empty registry. *)
Definition script : M unit :=
  opcs <- importPrinterList [] ;;
  main opcs.

End Script.

End Main.

(** * Vocabulary of the statements *)

Import Py OctoPrintClient Main.

(** ** Concrete fleets *)

Module Scenario.

(** JSON text written with apostrophes for its quotation marks. *)
Fixpoint json_text (s : string) : string :=
  match s with
  | EmptyString => ""
  | String c s => String (if Ascii.eqb c "'" then dquote else c) (json_text s)
  end.

Definition opc1 : OctoPrintClient.t :=
  {| ipAddress := "10.0.0.5"; apiKey := "K1"; username := "u"; password := "p" |}.

Definition opc2 : OctoPrintClient.t :=
  {| ipAddress := "10.0.0.6"; apiKey := "K2"; username := "u"; password := "p" |}.

Definition ends_with (suffix s : string) : bool :=
  String.eqb suffix
    (string_of_list_ascii (drop (String.length s - String.length suffix)
                          (list_ascii_of_string s))).

Definition connection_body (state : string) : string :=
  json_text ("{'current': {'state': '" +:+ state +:+ "', 'port': '/dev/ttyUSB0'}}").

Definition printer_body : string :=
  json_text ("{'state': {'text': 'Operational', 'flags': {'printing': false, "
    +:+ "'ready': true, 'operational': true, 'pausing': false, 'paused': false, "
    +:+ "'finishing': false}}, 'temperature': {'bed': {'actual': 60.2, "
    +:+ "'target': 60.0}, 'tool0': {'actual': 210.0, 'target': 210.0}}}").

(** A controller whose printer is in [state]; it answers every
    request. *)
Definition controller (state : string) : list Request → Request → Outcome :=
  fun _ rq =>
    match rq_method rq with
    | GET =>
        if ends_with "/api/connection" (rq_url rq) then
          Responds {| status_code := 200; text := connection_body state |}
        else Responds {| status_code := 200; text := printer_body |}
    | POST => Responds {| status_code := 204; text := "" |}
    end.

(** Nothing listens at the address: every connection is refused. *)
Definition refused : list Request → Request → Outcome :=
  fun _ _ => Fails ConnectionError "Connection refused".

(** The printer is connected, and the status request is refused. *)
Definition status_refused : list Request → Request → Outcome :=
  fun _ rq =>
    if ends_with "10.0.0.5/api/printer" (rq_url rq) then
      Fails ConnectionError "Connection refused"
    else controller "Operational" [] rq.

(** Nothing listens at [10.0.0.5]; every other controller is up with
    its printer connected. *)
Definition first_refused : list Request → Request → Outcome :=
  fun _ rq =>
    if String.prefix "http://10.0.0.5/" (rq_url rq) then
      Fails ConnectionError "Connection refused"
    else controller "Operational" [] rq.

Definition world (net : list Request → Request → Outcome) : World :=
  {| net := net; sent := []; log := []; stdout := []; files := ∅ |}.

Definition a_gcode : string := "/api/files/local/a.gcode".

(** One [print] command, for [opc1]. *)
Definition print_command : list (list PyVal) :=
  [[PStr "10.0.0.5"]; [PStr "print"]; [PStr a_gcode]].

Definition select_request (opc : OctoPrintClient.t) (path : string) : Request :=
  {| rq_method := POST; rq_url := "http://" +:+ ipAddress opc +:+ path;
     rq_headers := [("Content-Type", "application/json"); ("X-Api-Key", apiKey opc)];
     rq_json := Some [("command", "select")]; rq_timeout := 1 |}.

Definition start_request (opc : OctoPrintClient.t) : Request :=
  {| rq_method := POST; rq_url := "http://" +:+ ipAddress opc +:+ "/api/job";
     rq_headers := [("Content-Type", "application/json"); ("X-Api-Key", apiKey opc)];
     rq_json := Some [("command", "start")]; rq_timeout := 1 |}.

End Scenario.

(** The request [isPrinterConnected] makes. *)
Definition connection_request (opc : OctoPrintClient.t) : Request :=
  {| rq_method := GET; rq_url := "http://" +:+ ipAddress opc +:+ "/api/connection";
     rq_headers := [("X-Api-Key", apiKey opc)]; rq_json := None; rq_timeout := 1 |}.

(** The request [getPrinterStatus] makes. *)
Definition printer_request (opc : OctoPrintClient.t) : Request :=
  {| rq_method := GET; rq_url := "http://" +:+ ipAddress opc +:+ "/api/printer";
     rq_headers := [("X-Api-Key", apiKey opc)]; rq_json := None; rq_timeout := 1 |}.

(** ** What is left behind *)

(** The rows of the aggregate file: every row is followed by a
    newline. *)
Fixpoint lines (rows : list string) : string :=
  match rows with
  | [] => ""
  | row :: rows => row +:+ nl +:+ lines rows
  end.

(** The line printed at the end of an iteration when [Verbose] is
    set. *)
Definition verbose_line (verbose : bool) (opc : OctoPrintClient.t) (opcStatus : string) :
    list string :=
  if verbose then [(ipAddress opc +:+ " printer status: ") +:+ opcStatus] else [].

(** A computation that leaves every file as it is. *)
Definition keeps_files {A} (c : M A) : Prop :=
  ∀ w, files (snd (c w)) = files w.

(** What [getCommandList] does once the delimiter and the header row
    are known. *)
Definition read_commands
    (pandas_read_csv : string → ascii → nat → exn + list (string * list PyVal))
    (content : string) (delimiter : ascii) (header : nat) : M (list (list PyVal)) :=
  dataframe <- lift (pandas_read_csv content delimiter header) ;;
  ipList <- column dataframe "IP_Address" ;;
  commandList <- column dataframe "Command" ;;
  argumentList <- column dataframe "Argument" ;;
  ret [ipList; commandList; argumentList].

(** ** Vocabulary of the further properties *)

(** The request [startPrintJob] makes first, and the one
    [selectPrintJob] makes for a path. *)
Definition start_request (opc : OctoPrintClient.t) : Request :=
  Scenario.start_request opc.

Definition select_request (opc : OctoPrintClient.t) (path : string) : Request :=
  {| rq_method := POST; rq_url := ("http://" +:+ ipAddress opc) +:+ path;
     rq_headers := [("Content-Type", "application/json"); ("X-Api-Key", apiKey opc)];
     rq_json := Some [("command", "select")]; rq_timeout := 1 |}.

(** A computation that leaves the controllers as they are and whose
    requests, added after those made before, all satisfy [P]. *)
Definition sends_only {A} (P : Request → Prop) (c : M A) : Prop :=
  ∀ w, net (snd (c w)) = net w
       ∧ ∃ l, sent (snd (c w)) = sent w ++ l ∧ Forall P l.

(** The part of an iteration of [updatePrinterStatus] that builds the
    row of a client: the poll and the branch taken on its result. *)
Definition status_row (opc : OctoPrintClient.t) : M string :=
  printerIsConnected <- isPrinterConnected opc ;;
  status <- opcStatusString opc printerIsConnected ;;
  ret (snd status).

(** The two polls of a client of the registry. *)
Definition poll_request (opcs : list OctoPrintClient.t) (rq : Request) : Prop :=
  ∃ opc, opc ∈ opcs ∧ (rq = connection_request opc ∨ rq = printer_request opc).

(** The four requests of a run, each for a client of the registry and
    with that client's key; the path of a select request is any
    text. *)
Definition fleet_request (opcs : list OctoPrintClient.t) (rq : Request) : Prop :=
  ∃ opc, opc ∈ opcs
         ∧ (rq = connection_request opc ∨ rq = printer_request opc
            ∨ rq = start_request opc ∨ ∃ path, rq = select_request opc path).

(** Nothing answers: every request ends in an exception of the class
    [ConnectionError]. *)
Definition refuses (w : World) : Prop :=
  ∀ h rq, ∃ cls msg, net w h rq = Fails cls msg ∧ is_ConnectionError cls = true.

(** The eight values [updatePrinterStatus] reads from the status of a
    connected printer, in the order it reads them. *)
Definition status_paths : list (list string) :=
  [["state"; "flags"; "printing"]; ["state"; "flags"; "ready"];
   ["state"; "flags"; "operational"]; ["state"; "flags"; "pausing"];
   ["state"; "flags"; "paused"]; ["state"; "flags"; "finishing"];
   ["temperature"; "bed"; "actual"]; ["temperature"; "tool0"; "actual"]].

(** What the first lookup that fails raises, if one of them fails. *)
Fixpoint first_error (v : PyVal) (paths : list (list string)) : option exn :=
  match paths with
  | [] => None
  | p :: paths =>
      match at_path v p with
      | inl e => Some e
      | inr _ => first_error v paths
      end
  end.

(** What the command loop does for the client [opc] at position [i],
    once past its first test. *)
Definition run_commands_at (i : nat) (opc : OctoPrintClient.t)
    (commandList : list (list PyVal)) : M unit :=
  (ips <- index commandList 0 ;;
   ip <- index ips i ;;
   if eq_str ip (ipAddress opc) then
     commands <- index commandList 1 ;;
     command <- index commands i ;;
     if eq_str command "print" then
       arguments <- index commandList 2 ;;
       argument <- index arguments i ;;
       selectPrintJob opc argument ;;
       startPrintJob opc ;;
       ret tt
     else ret tt
   else ret tt)%py.

(** The skip of the command loop at position [i]: the address of the
    command is not that of the client, or its command is not
    [print]. *)
Definition skipped (opc : OctoPrintClient.t) (ips commands : list PyVal) (i : nat) : Prop :=
  ∃ ip, ips !! i = Some ip
        ∧ (eq_str ip (ipAddress opc) = false
           ∨ ∃ command, commands !! i = Some command ∧ eq_str command "print" = false).

(** The clients of a device list, row by row. *)
Fixpoint clients (ips apis users passes : list string) : list OctoPrintClient.t :=
  match ips, apis, users, passes with
  | ip :: ips, api :: apis, user :: users, pass :: passes =>
      {| ipAddress := ip; apiKey := api; username := user; password := pass |}
      :: clients ips apis users passes
  | _, _, _, _ => []
  end.

(** The column [name] of a device list, if it has one. *)
Definition text_col (dataframe : list (string * list string)) (name : string) :
    option (list string) :=
  (fun found => snd (snd found)) <$> list_find (fun kv => fst kv = name) dataframe.

(** The hint [importPrinterList] prints when it has caught an
    exception. *)
Definition import_hint : string :=
  "ListOfPrinters.csv may be missing or of invalid format".

(** The methods of a client that take no argument. *)
Definition methods : list (OctoPrintClient.t → M PyVal) :=
  [login; logout; connectToPrinter; disconnectFromPrinter; isPrinterConnected;
   getPrinterStatus; getCurrentPrintJob; startPrintJob].

Module Desk.

(** A device list of two rows and a command file with the marker
    [sep=;], with what pandas makes of them. *)
Definition printers_csv : string :=
  "ipAddress;apiKey;username;password" +:+ nl +:+ "10.0.0.5;K1;u;p" +:+ nl
  +:+ "10.0.0.6;K2;u;p" +:+ nl.

Definition read_printers (content : string) (sep : ascii) (header : nat) :
    exn + list (string * list string) :=
  inr [("ipAddress", ["10.0.0.5"; "10.0.0.6"]); ("apiKey", ["K1"; "K2"]);
       ("username", ["u"; "u"]); ("password", ["p"; "p"])].

Definition commands_csv : string :=
  "sep=;" +:+ nl +:+ "IP_Address;Command;Argument" +:+ nl
  +:+ "10.0.0.5;print;/api/files/local/a.gcode" +:+ nl.

Definition read_commands_csv (content : string) (sep : ascii) (header : nat) :
    exn + list (string * list PyVal) :=
  inr [("IP_Address", [PStr "10.0.0.5"]); ("Command", [PStr "print"]);
       ("Argument", [PStr Scenario.a_gcode])].

Definition sniff_semicolon (sample : string) : exn + ascii := inr ";"%char.

Definition exn_name (e : exn) : string :=
  match e with
  | FileNotFoundError path => "No such file or directory: " +:+ path
  | _ => "error"
  end.

(** The controller of [10.0.0.5] answers a request for its status
    with an error object, as it does for a key it does not know. *)
Definition forbidden : list Request → Request → Outcome :=
  fun _ _ => Responds {| status_code := 403;
                         text := Scenario.json_text "{'error': 'Invalid API key'}" |}.

(** The printer is connected and has no temperature to report yet. *)
Definition no_temperature : list Request → Request → Outcome :=
  fun _ rq =>
    if Scenario.ends_with "/api/connection" (rq_url rq) then
      Responds {| status_code := 200; text := Scenario.connection_body "Operational" |}
    else
      Responds {| status_code := 200;
                  text := Scenario.json_text
                    ("{'state': {'flags': {'printing': false, 'ready': true, "
                     +:+ "'operational': true, 'pausing': false, 'paused': false, "
                     +:+ "'finishing': false}}, 'temperature': {}}") |}.

(** The select request is refused, everything else is answered. *)
Definition select_refused : list Request → Request → Outcome :=
  fun _ rq =>
    if Scenario.ends_with ".gcode" (rq_url rq) then
      Fails ConnectionError "Connection refused"
    else Scenario.controller "Operational" [] rq.

End Desk.

(** * Properties *)

(** ** The two attribute references that are never called *)

(** C5: [connectToPrinters] tests the bound method
    [opc.isPrinterConnected] itself, which is always true, so its
    [not] never holds: for every registry and every world the function
    returns without a single request, and in particular sends no
    connect request to the printer of [Scenario.opc1], which the
    controller reports as [Closed]. *)
Theorem connectToPrinters_never_connects :
  (∀ (opcs : list OctoPrintClient.t) (w : World), connectToPrinters opcs w = (Ret tt, w))
  ∧ fst (isPrinterConnected Scenario.opc1 (Scenario.world (Scenario.controller "Closed")))
    = Ret (PBool false)
  ∧ sent (snd (connectToPrinters [Scenario.opc1]
                 (Scenario.world (Scenario.controller "Closed")))) = [].
Proof.
  assert (H : ∀ (opcs : list OctoPrintClient.t) i w,
             for_enumerate i opcs (fun _ _ => ret tt) w = (Ret tt, w)).
  { induction opcs as [|opc opcs IH]; intros i w; [reflexivity|].
    cbn [for_enumerate]. unfold bind at 1. cbn [ret]. apply IH. }
  split; [|split].
  - intros opcs w. unfold connectToPrinters. cbn [truthy negb]. apply H.
  - vm_compute. reflexivity.
  - reflexivity.
Qed.

(** C1: the loop of the main script tests [opc.isPrinterConnected]
    without calling it.  With the printer of [Scenario.opc1] reported
    [Closed], so that a poll answers [False], a matching [print]
    command still makes the loop send the select request and then the
    start request. *)
Theorem run_commands_ignores_connection_state :
  let w := Scenario.world (Scenario.controller "Closed") in
  fst (isPrinterConnected Scenario.opc1 w) = Ret (PBool false)
  ∧ run_commands [Scenario.opc1] Scenario.print_command w
    = (Ret tt,
       {| net := net w;
          sent := [Scenario.select_request Scenario.opc1 Scenario.a_gcode;
                   Scenario.start_request Scenario.opc1];
          log := []; stdout := []; files := ∅ |}).
Proof.
  split.
  - vm_compute. reflexivity.
  - reflexivity.
Qed.

(** ** The device client *)

Section Client.

Variable self : OctoPrintClient.t.

(** A request that ends in a [ConnectionError] (refused, no route, no
    answer to the connection attempt) is caught by [get]:
    [isPrinterConnected] returns [None] and logs three records, the
    last one naming the address. *)
Lemma isPrinterConnected_unreachable (w : World) (cls : requests_exn) (msg : string) :
  net w (sent w) (connection_request self) = Fails cls msg →
  is_ConnectionError cls = true →
  isPrinterConnected self w
  = (Ret PNone,
     {| net := net w;
        sent := sent w ++ [connection_request self];
        log := log w ++ ["Cannot connect to Raspberry Pi"; msg;
                         ipAddress self +:+ " isPrinterConnected response: No connection to Pi"];
        stdout := stdout w ++ ["None"];
        files := files w |}).
Proof.
  intros Hnet Hcls.
  unfold isPrinterConnected, get, except_ConnectionError, bind, requests_call.
  fold (connection_request self). rewrite Hnet. cbn. rewrite Hcls. cbn.
  rewrite <- !app_assoc. reflexivity.
Qed.

(** A controller that answers with JSON text carrying
    [current.state]: the result is [True] for ["Operational"] and
    [False] for anything else, and nothing is logged. *)
Lemma isPrinterConnected_responds (w : World) (r : Response) (j current state : PyVal) :
  net w (sent w) (connection_request self) = Responds r →
  Json.loads (text r) = inr j →
  subscript j "current" = inr current →
  subscript current "state" = inr state →
  isPrinterConnected self w
  = (Ret (PBool (eq_str state "Operational")),
     {| net := net w; sent := sent w ++ [connection_request self];
        log := log w; stdout := stdout w; files := files w |}).
Proof.
  intros Hnet Hj Hc Hs.
  unfold isPrinterConnected, get, except_ConnectionError, bind, requests_call.
  fold (connection_request self). rewrite Hnet. cbn.
  unfold bind, json_loads, getitem. rewrite Hj. cbn.
  rewrite Hc. cbn. rewrite Hs. cbn.
  destruct (eq_str state "Operational"); reflexivity.
Qed.

End Client.

(** C2: [get] catches [ConnectionError] only.  When the controller
    accepts the connection and does not answer within the timeout of
    one second, [requests.get] raises [ReadTimeout], which is a
    [Timeout] and not a [ConnectionError]: the exception leaves
    [isPrinterConnected] instead of the result [None], and nothing is
    logged. *)
Theorem isPrinterConnected_read_timeout_raises :
  ∀ (self : OctoPrintClient.t) (msg : string) (sent0 : list Request)
    (log0 stdout0 : list string) (files0 : gmap string string),
    let silent : list Request → Request → Outcome := fun _ _ => Fails ReadTimeout msg in
    isPrinterConnected self
      {| net := silent; sent := sent0; log := log0; stdout := stdout0; files := files0 |}
    = (Raise (RequestException ReadTimeout msg),
       {| net := silent; sent := sent0 ++ [connection_request self];
          log := log0; stdout := stdout0; files := files0 |}).
Proof. intros. reflexivity. Qed.

(** C3: [getPrinterStatus] passes the body to [json.loads] before it
    compares it with the text of the error.  The body
    [Printer is not operational] is not JSON, so the call ends in
    [JSONDecodeError]: the branch that would log and return [None] is
    never reached, and the log stays as it was. *)
Theorem getPrinterStatus_not_operational_raises :
  ∀ (self : OctoPrintClient.t) (code : Z) (sent0 : list Request)
    (log0 stdout0 : list string) (files0 : gmap string string),
    let controller : list Request → Request → Outcome :=
      fun _ _ => Responds {| status_code := code; text := "Printer is not operational" |} in
    getPrinterStatus self
      {| net := controller; sent := sent0; log := log0; stdout := stdout0; files := files0 |}
    = (Raise JSONDecodeError,
       {| net := controller; sent := sent0 ++ [printer_request self]; log := log0;
          stdout := stdout0 ++ ["Accessing " +:+ rq_url (printer_request self)
                                 +:+ " using API Key " +:+ apiKey self];
          files := files0 |}).
Proof. intros. reflexivity. Qed.

(** ** Loops *)

Section Loops.

Context {A : Type}.
Variable body : nat → A → M unit.

(** A loop over [l1 ++ l2] is the loop over [l1] followed, when that
    one returns, by the loop over [l2] with the count carried on. *)
Lemma for_enumerate_app (l1 l2 : list A) (i : nat) (w : World) :
  for_enumerate i (l1 ++ l2) body w
  = (for_enumerate i l1 body ;; for_enumerate (i + List.length l1) l2 body) w.
Proof.
  revert i w. induction l1 as [|x l1 IH]; intros i w.
  - cbn. unfold bind, ret. rewrite Nat.add_0_r. reflexivity.
  - cbn [app for_enumerate List.length]. unfold bind.
    destruct (body i x w) as [[[]|e] w1]; [|reflexivity].
    rewrite IH. unfold bind. rewrite Nat.add_succ_r. reflexivity.
Qed.

(** The first iteration that raises ends the loop. *)
Lemma for_enumerate_raise (x : A) (l : list A) (i : nat) (w w' : World) (e : exn) :
  body i x w = (Raise e, w') →
  for_enumerate i (x :: l) body w = (Raise e, w').
Proof. intros H. cbn. unfold bind. rewrite H. reflexivity. Qed.

End Loops.

(** ** The command phase *)

(** C9: with fewer command records than clients, the loop of the main
    script is the loop over the clients that have a record, followed
    by an [IndexError]: at the first position past the records
    [commandList[0][i]] fails, the exception is not caught, and no
    later client is looked at. *)
Theorem run_commands_short_command_list
    (opcs : list OctoPrintClient.t) (ips commands arguments : list PyVal) (w : World) :
  (List.length ips < List.length opcs)%nat →
  run_commands opcs [ips; commands; arguments] w
  = (run_commands (take (List.length ips) opcs) [ips; commands; arguments] ;;
     raise IndexError) w.
Proof.
  intros Hlen. unfold run_commands.
  set (body := fun (i : nat) (opc : OctoPrintClient.t) => _).
  rewrite <- (take_drop (List.length ips) opcs) at 1.
  rewrite for_enumerate_app. unfold bind.
  destruct (for_enumerate 0 (take (List.length ips) opcs) body w) as [[[]|e] w1];
    [|reflexivity].
  rewrite length_take, Nat.min_l by lia. cbn [Nat.add].
  destruct (drop (List.length ips) opcs) as [|opc rest] eqn:Hdrop.
  { apply (f_equal List.length) in Hdrop. rewrite length_drop in Hdrop.
    cbn in Hdrop. lia. }
  apply for_enumerate_raise. subst body. cbn [truthy].
  unfold bind, index. cbn [lookup list_lookup ret].
  rewrite (proj2 (lookup_ge_None ips (List.length ips))) by lia.
  reflexivity.
Qed.

(** The instance of C9 for two clients and one command: the command is
    run for the first client and the loop then ends in [IndexError]. *)
Lemma run_commands_short_command_list_witness :
  (List.length [PStr "10.0.0.5"] < List.length [Scenario.opc1; Scenario.opc2])%nat
  ∧ run_commands [Scenario.opc1; Scenario.opc2] Scenario.print_command
      (Scenario.world (Scenario.controller "Operational"))
    = (Raise IndexError,
       {| net := Scenario.controller "Operational";
          sent := [Scenario.select_request Scenario.opc1 Scenario.a_gcode;
                   Scenario.start_request Scenario.opc1];
          log := []; stdout := []; files := ∅ |}).
Proof.
  split; [cbn; lia|].
  unfold Scenario.print_command.
  rewrite (run_commands_short_command_list
             [Scenario.opc1; Scenario.opc2] [PStr "10.0.0.5"] [PStr "print"]
             [PStr Scenario.a_gcode] _ ltac:(cbn; lia)).
  reflexivity.
Defined.

(** ** The command file *)

Section CsvReader.

Lemma parse_process_char_raises r c e :
  Csv.parse_process_char r c = inl e → e = CsvError.
Proof.
  unfold Csv.parse_process_char, Csv.parse_add_char.
  intros H.
  repeat match type of H with
         | context [match ?x with _ => _ end] => destruct x
         end; congruence.
Qed.

Lemma process_line_raises line : ∀ r e,
  Csv.process_line r line = inl e → e = CsvError.
Proof.
  induction line as [|c line IH]; intros r e; cbn [Csv.process_line].
  - apply parse_process_char_raises.
  - destruct (Csv.parse_process_char r (Some c)) eqn:Hc.
    + intros [= <-]. eapply parse_process_char_raises, Hc.
    + apply IH.
Qed.

(** [csv.Error] is the only exception of the reader. *)
Lemma records_raises lines : ∀ r e,
  Csv.records r lines = inl e → e = CsvError.
Proof.
  induction lines as [|line lines IH]; intros r e; cbn [Csv.records].
  - repeat case_match; discriminate.
  - destruct (Csv.process_line r line) as [e'|r'] eqn:Hline.
    + intros [= <-]. eapply process_line_raises, Hline.
    + destruct (Csv.st r'); try apply IH.
      destruct (Csv.records Csv.parse_reset lines) eqn:Hrec; [|discriminate].
      intros [= <-]. eapply IH, Hrec.
Qed.

(** The default dialect splits the marker line [sep=,] at its comma:
    the first cell of the first row is [sep=]. *)
Lemma reader_list_comma_marker (rest : string) :
  Csv.reader_list ("sep=," +:+ nl +:+ rest) = inl CsvError
  ∨ ∃ rows, Csv.reader_list ("sep=," +:+ nl +:+ rest) = inr (["sep="; ""] :: rows).
Proof.
  unfold Csv.reader_list.
  change (Csv.text_lines [] (list_ascii_of_string ("sep=," +:+ nl +:+ rest)))
    with (list_ascii_of_string ("sep=," +:+ nl) :: Csv.text_lines [] (list_ascii_of_string rest)).
  cbn [Csv.records].
  destruct (Csv.process_line Csv.parse_reset (list_ascii_of_string ("sep=," +:+ nl)))
    as [e|r] eqn:Hline; vm_compute in Hline; [discriminate|].
  injection Hline as <-. cbn [Csv.st Csv.fields rev app].
  destruct (Csv.records Csv.parse_reset (Csv.text_lines [] (list_ascii_of_string rest)))
    as [e|rows] eqn:Hrec.
  - left. apply records_raises in Hrec. by subst.
  - right. by exists rows.
Qed.

(** The marker line [sep=;] has no comma and stays one cell. *)
Lemma reader_list_semicolon_marker (rest : string) :
  Csv.reader_list ("sep=;" +:+ nl +:+ rest) = inl CsvError
  ∨ ∃ rows, Csv.reader_list ("sep=;" +:+ nl +:+ rest) = inr (["sep=;"] :: rows).
Proof.
  unfold Csv.reader_list.
  change (Csv.text_lines [] (list_ascii_of_string ("sep=;" +:+ nl +:+ rest)))
    with (list_ascii_of_string ("sep=;" +:+ nl) :: Csv.text_lines [] (list_ascii_of_string rest)).
  cbn [Csv.records].
  destruct (Csv.process_line Csv.parse_reset (list_ascii_of_string ("sep=;" +:+ nl)))
    as [e|r] eqn:Hline; vm_compute in Hline; [discriminate|].
  injection Hline as <-. cbn [Csv.st Csv.fields rev app].
  destruct (Csv.records Csv.parse_reset (Csv.text_lines [] (list_ascii_of_string rest)))
    as [e|rows] eqn:Hrec.
  - left. apply records_raises in Hrec. by subst.
  - right. by exists rows.
Qed.

End CsvReader.

Section CommandFile.

Variable verbose : bool.
Variable path : string.
Variable pandas_read_csv : string → ascii → nat → exn + list (string * list PyVal).
Variable sniff_sample : string → exn + ascii.

(** C8: a command file whose first line is [sep=,] is never parsed.
    [csv.reader] has split that line at the comma, so its first cell
    is [sep=] and equals neither marker; the fallback then asks the
    sniffer for a delimiter on what is left of a file that has been
    read to its end, and [csv.Error] leaves [getCommandList]. *)
Theorem getCommandList_comma_marker_raises :
  ∀ (rest : string) (net0 : list Request → Request → Outcome) (sent0 : list Request)
    (log0 stdout0 : list string) (files0 : gmap string string),
    fst (getCommandList verbose path pandas_read_csv sniff_sample
           {| net := net0; sent := sent0; log := log0; stdout := stdout0;
              files := <[path := "sep=," +:+ nl +:+ rest]> files0 |})
    = Raise CsvError.
Proof.
  intros. unfold getCommandList, bind at 1, open_r. cbn [files].
  rewrite lookup_insert_eq. unfold bind at 1.
  destruct (reader_list_comma_marker rest) as [H|[rows H]]; rewrite H.
  - reflexivity.
  - destruct verbose; reflexivity.
Qed.

(** The other marker works: with [sep=;] as first line the file is
    handed to pandas with the semicolon as delimiter and the second
    line as header (unless the reader itself gives up on the file). *)
Lemma getCommandList_semicolon_marker :
  ∀ (rest : string) (net0 : list Request → Request → Outcome) (sent0 : list Request)
    (log0 stdout0 : list string) (files0 : gmap string string),
    let content := "sep=;" +:+ nl +:+ rest in
    let w := {| net := net0; sent := sent0; log := log0; stdout := stdout0;
                files := <[path := content]> files0 |} in
    fst (getCommandList verbose path pandas_read_csv sniff_sample w) = Raise CsvError
    ∨ fst (getCommandList verbose path pandas_read_csv sniff_sample w)
      = fst (read_commands pandas_read_csv content ";" 1 w).
Proof.
  intros. subst w content.
  unfold getCommandList, read_commands, column, bind, open_r, index, print, lift, ret, raise.
  cbn [files]. rewrite !lookup_insert_eq.
  destruct (reader_list_semicolon_marker rest) as [H|[rows H]]; rewrite H.
  - left. reflexivity.
  - right. destruct verbose; cbn; rewrite ?lookup_insert_eq;
      destruct (pandas_read_csv _ _ _) as [e|df]; try reflexivity;
      repeat case_match; simplify_eq/=; reflexivity.
Qed.

End CommandFile.

(** ** Strings and paths *)

Lemma string_app_assoc (a b c : string) : (a +:+ b) +:+ c = a +:+ b +:+ c.
Proof.
  induction a as [|x a IH]; [reflexivity|].
  change (String x ((a +:+ b) +:+ c) = String x (a +:+ b +:+ c)). by rewrite IH.
Qed.

Lemma list_ascii_of_string_app (a b : string) :
  list_ascii_of_string (a +:+ b) = list_ascii_of_string a ++ list_ascii_of_string b.
Proof.
  induction a as [|x a IH]; [reflexivity|].
  change (x :: list_ascii_of_string (a +:+ b)
          = x :: list_ascii_of_string a ++ list_ascii_of_string b).
  by rewrite IH.
Qed.

Lemma string_app_inv_tail (a b c : string) : a +:+ c = b +:+ c → a = b.
Proof.
  intros H. apply (f_equal list_ascii_of_string) in H.
  rewrite !list_ascii_of_string_app in H. apply app_inv_tail in H.
  rewrite <- (string_of_list_ascii_of_string a), <- (string_of_list_ascii_of_string b).
  by rewrite H.
Qed.

(** The per-device files of two positions are two files. *)
Lemma path_statusTxt_inj (i j : nat) : path_statusTxt i = path_statusTxt j → i = j.
Proof.
  unfold path_statusTxt. intros H.
  apply (inj (String.app _)) in H. apply (inj (String.app _)) in H.
  apply string_app_inv_tail in H. cbn in H.
  apply (inj pretty) in H. lia.
Qed.

(** No per-device file is the aggregate file. *)
Lemma path_statusTxt_csv (i : nat) : path_statusTxt i ≠ path_statusCsv.
Proof.
  unfold path_statusTxt, path_statusCsv. intros H.
  apply (inj (String.app "PrinterStatus/")) in H. discriminate H.
Qed.

(** ** What a computation leaves untouched *)

Create HintDb keeps discriminated.

Section Keeps.

Context {A B : Type}.

Lemma keeps_ret (a : A) : keeps_files (ret a).
Proof. by intros w. Qed.

Lemma keeps_raise (e : exn) : keeps_files (@raise A e).
Proof. by intros w. Qed.

Lemma keeps_bind (c : M A) (k : A → M B) :
  keeps_files c → (∀ a, keeps_files (k a)) → keeps_files (bind c k).
Proof.
  intros Hc Hk w. unfold bind. specialize (Hc w).
  destruct (c w) as [[a|e] w1]; cbn in *; [|done].
  by rewrite Hk.
Qed.

Lemma keeps_lift (r : exn + A) : keeps_files (lift r).
Proof. by destruct r. Qed.

Lemma keeps_except (c : M A) (h : string → M A) :
  keeps_files c → (∀ msg, keeps_files (h msg)) → keeps_files (except_ConnectionError c h).
Proof.
  intros Hc Hh w. unfold except_ConnectionError. specialize (Hc w).
  destruct (c w) as [[a|[]] w1]; cbn in *; try done.
  destruct (is_ConnectionError _); [by rewrite Hh|done].
Qed.

End Keeps.

Lemma keeps_print s : keeps_files (print s).
Proof. by intros w. Qed.

Lemma keeps_logger_error v : keeps_files (logger_error v).
Proof. by intros w. Qed.

Lemma keeps_requests_call rq : keeps_files (requests_call rq).
Proof. intros w. unfold requests_call. by destruct (net w (sent w) rq). Qed.

#[local] Hint Resolve keeps_ret keeps_raise keeps_lift keeps_print keeps_logger_error
  keeps_requests_call : keeps.

Ltac keeps :=
  repeat first
    [ progress intros
    | apply keeps_bind
    | apply keeps_except
    | solve [auto with keeps]
    | match goal with
      | |- keeps_files (match ?x with _ => _ end) => destruct x
      | |- keeps_files (if ?b then _ else _) => destruct b
      end ].

Lemma keeps_getitem v key : keeps_files (getitem v key).
Proof. unfold getitem. keeps. Qed.

Lemma keeps_json_loads v : keeps_files (json_loads v).
Proof. unfold json_loads. keeps. Qed.

Lemma keeps_str_add a b : keeps_files (str_add a b).
Proof. unfold str_add. keeps. Qed.

#[local] Hint Resolve keeps_getitem keeps_json_loads keeps_str_add : keeps.

Lemma keeps_str_at v a b c : keeps_files (str_at v a b c).
Proof. unfold str_at. keeps. Qed.

Lemma keeps_get self url headers : keeps_files (get self url headers).
Proof. unfold get. keeps. Qed.

#[local] Hint Resolve keeps_str_at keeps_get : keeps.

Lemma keeps_isPrinterConnected self : keeps_files (isPrinterConnected self).
Proof. unfold isPrinterConnected. keeps. Qed.

Lemma keeps_getPrinterStatus self : keeps_files (getPrinterStatus self).
Proof. unfold getPrinterStatus. keeps. Qed.

#[local] Hint Resolve keeps_isPrinterConnected keeps_getPrinterStatus : keeps.

Lemma keeps_opcStatusString opc pc : keeps_files (opcStatusString opc pc).
Proof. unfold opcStatusString. keeps. Qed.

(** ** The status phase *)

Lemma string_app_nil_r (a : string) : a +:+ "" = a.
Proof.
  induction a as [|x a IH]; [reflexivity|].
  change (String x (a +:+ "") = String x a). by rewrite IH.
Qed.

Lemma lines_snoc (rows : list string) (row : string) :
  lines (rows ++ [row]) = lines rows +:+ row +:+ nl.
Proof.
  induction rows as [|r rows IH]; cbn [lines app].
  - by rewrite string_app_nil_r.
  - by rewrite IH, !string_app_assoc.
Qed.

(** Both ways a computation started with [bind] can return. *)
Lemma bind_Ret {A B} (c : M A) (k : A → M B) (w w' : World) (b : B) :
  bind c k w = (Ret b, w') → ∃ a w1, c w = (Ret a, w1) ∧ k a w1 = (Ret b, w').
Proof.
  unfold bind. destruct (c w) as [[a|e] w1]; [|discriminate]. eauto.
Qed.

Ltac bind_inv H :=
  repeat (let a := fresh "a" in
          let w := fresh "w" in
          let Ha := fresh "Ha" in
          apply bind_Ret in H as (a & w & Ha & H)).

Section StatusPhase.

Variable verbose : bool.

Abbreviation body := (updatePrinterStatus_body verbose).

(** The row an iteration builds starts with the address of its
    client. *)
Lemma status_row_address (opc : OctoPrintClient.t) (pc st : PyVal) (row : string)
    (w w' : World) :
  opcStatusString opc pc w = (Ret (st, row), w') →
  ∃ rest, row = ipAddress opc +:+ ";" +:+ rest.
Proof.
  unfold opcStatusString. intros H. destruct (truthy pc).
  - bind_inv H. injection H as _ <- _. eauto.
  - injection H as _ <- _. eauto.
Qed.

(** What one iteration does to the files: nothing when it raises
    before its row is built; otherwise it appends the row to the
    aggregate file and rewrites its own per-device file. *)
Lemma body_files (i : nat) (opc : OctoPrintClient.t) (w w' : World) (res : Result unit) :
  body i opc w = (res, w') →
  ((∃ e, res = Raise e) ∧ files w' = files w)
  ∨ ∃ rest,
      let row := ipAddress opc +:+ ";" +:+ rest in
      files w'
      = <[path_statusTxt i := opcStatusFields +:+ row]>
          (<[path_statusCsv := default "" (files w !! path_statusCsv) +:+ row +:+ nl]>
             (files w)).
Proof.
  unfold updatePrinterStatus_body. intros H.
  unfold bind at 1 in H.
  pose proof (keeps_isPrinterConnected opc w) as Hpc.
  destruct (isPrinterConnected opc w) as [[pc|e] w1]; cbn [snd] in Hpc;
    [|injection H as <- <-; left; eauto].
  unfold bind at 1 in H.
  pose proof (keeps_opcStatusString opc pc w1) as Hkeep.
  destruct (opcStatusString opc pc w1) as [[[st row]|e] w2] eqn:Hrow;
    cbn [snd] in Hkeep.
  - destruct (status_row_address _ _ _ _ _ _ Hrow) as [rest ->].
    right. exists rest. cbn zeta.
    unfold bind at 1, write at 1 in H. unfold bind at 1, open_w in H.
    unfold bind at 1, write at 1 in H. cbn [files] in H.
    match type of H with
    | ?c ?w3 = _ =>
        assert (Hv : keeps_files c) by keeps;
        specialize (Hv w3); rewrite H in Hv; cbn [snd files] in Hv
    end.
    rewrite Hv, lookup_insert_eq, insert_insert_eq, Hkeep, Hpc. reflexivity.
  - injection H as <- <-. left. split; [eauto|congruence].
Qed.

(** The loop, started at position [i] with [c] in the aggregate file:
    it appends its rows to [c], one per client it gets through; row
    [k] is also, after the header, the content of the per-device file
    of position [i + k]; no other file changes. *)
Lemma loop_files (opcs : list OctoPrintClient.t) : ∀ (i : nat) (w w' : World)
    (res : Result unit) (c : string),
  files w !! path_statusCsv = Some c →
  for_enumerate i opcs body w = (res, w') →
  ∃ rows : list string,
    files w' !! path_statusCsv = Some (c +:+ lines rows)
    ∧ (List.length rows ≤ List.length opcs)%nat
    ∧ (res = Ret tt → List.length rows = List.length opcs)
    ∧ (∀ k row, rows !! k = Some row →
         files w' !! path_statusTxt (i + k) = Some (opcStatusFields +:+ row)
         ∧ ∃ opc rest, opcs !! k = Some opc ∧ row = ipAddress opc +:+ ";" +:+ rest)
    ∧ (∀ p, p ≠ path_statusCsv →
         (∀ k, (k < List.length rows)%nat → p ≠ path_statusTxt (i + k)) →
         files w' !! p = files w !! p).
Proof.
  induction opcs as [|opc opcs IH]; intros i w w' res c Hc Hloop.
  { injection Hloop as <- <-. exists []. cbn [lines].
    rewrite string_app_nil_r. split_and!; auto. intros k row [=]. }
  cbn [for_enumerate] in Hloop. unfold bind in Hloop.
  destruct (body i opc w) as [res1 w1] eqn:Hbody.
  destruct (body_files _ _ _ _ _ Hbody) as [[[e ->] Hfiles]|[rest Hfiles]].
  - injection Hloop as <- <-. exists []. cbn [lines].
    rewrite string_app_nil_r, Hfiles. split_and!; auto.
    + cbn; lia.
    + discriminate.
    + intros k row [=].
  - cbn zeta in Hfiles. rewrite Hc in Hfiles. cbn [default] in Hfiles.
    set (row := ipAddress opc +:+ ";" +:+ rest) in *.
    assert (Hcsv1 : files w1 !! path_statusCsv = Some (c +:+ row +:+ nl)).
    { rewrite Hfiles, lookup_insert_ne by apply path_statusTxt_csv.
      apply lookup_insert_eq. }
    assert (Htxt1 : files w1 !! path_statusTxt i = Some (opcStatusFields +:+ row)).
    { rewrite Hfiles. apply lookup_insert_eq. }
    assert (Hframe1 : ∀ p, p ≠ path_statusCsv → p ≠ path_statusTxt i →
                           files w1 !! p = files w !! p).
    { intros p ? ?. rewrite Hfiles, !lookup_insert_ne; auto. }
    destruct res1 as [[]|e].
    + destruct (IH (S i) w1 w' res _ Hcsv1 Hloop)
        as (rows & Hcsv & Hle & Hlen & Hrows & Hframe).
      exists (row :: rows). cbn [lines List.length].
      split; [by rewrite Hcsv, !string_app_assoc|].
      split; [lia|]. split; [intros ?; f_equal; auto|]. split.
      * intros [|k] r Hk; cbn in Hk.
        -- injection Hk as <-. rewrite Nat.add_0_r. split; [|by exists opc, rest].
           rewrite Hframe; [done|apply path_statusTxt_csv|].
           intros k' _ Heq. apply path_statusTxt_inj in Heq. lia.
        -- replace (i + S k)%nat with (S i + k)%nat by lia. apply (Hrows k r Hk).
      * intros p Hp Hk. rewrite Hframe; [apply Hframe1; [done|]|done|].
        -- rewrite <- (Nat.add_0_r i). apply Hk. lia.
        -- intros k' ?. replace (S i + k')%nat with (i + S k')%nat by lia.
           apply Hk. lia.
    + injection Hloop as <- <-. exists [row]. cbn [lines List.length].
      rewrite string_app_nil_r. split; [done|]. split; [lia|].
      split; [discriminate|]. split.
      * intros [|k] r Hk; cbn in Hk; [|discriminate].
        injection Hk as <-. rewrite Nat.add_0_r. split; [done|by exists opc, rest].
      * intros p Hp Hk. apply Hframe1; [done|].
        rewrite <- (Nat.add_0_r i). apply Hk. lia.
Qed.

(** The status phase, as its loop started on the truncated aggregate
    file that holds the header. *)
Lemma updatePrinterStatus_loop (opcs : list OctoPrintClient.t) (w : World) :
  updatePrinterStatus verbose opcs w
  = for_enumerate 0 opcs body
      {| net := net w; sent := sent w; log := log w; stdout := stdout w;
         files := <[path_statusCsv := opcStatusFields]> (files w) |}.
Proof.
  unfold updatePrinterStatus, bind, open_w, write. cbn [files].
  rewrite lookup_insert_eq, insert_insert_eq. reflexivity.
Qed.

(** The phase over a registry with one more client at its end is the
    phase over the registry followed by the iteration for that
    client. *)
Lemma updatePrinterStatus_snoc (pre : list OctoPrintClient.t) (opc : OctoPrintClient.t)
    (w : World) :
  updatePrinterStatus verbose (pre ++ [opc]) w
  = (updatePrinterStatus verbose pre ;; body (List.length pre) opc) w.
Proof.
  unfold bind. rewrite !updatePrinterStatus_loop, for_enumerate_app.
  unfold bind. destruct (for_enumerate 0 pre body _) as [[[]|e] w1]; [|reflexivity].
  cbn [for_enumerate Nat.add]. unfold bind.
  destruct (body _ opc w1) as [[[]|e] w2]; reflexivity.
Qed.

(** An iteration for a client that cannot be reached: the poll gives
    [None], whose [str] goes into the row, and the eight other fields
    stay empty. *)
Lemma body_unreachable (i : nat) (opc : OctoPrintClient.t) (w : World)
    (cls : requests_exn) (msg : string) :
  net w (sent w) (connection_request opc) = Fails cls msg →
  is_ConnectionError cls = true →
  let row := ipAddress opc +:+ ";None;;;;;;;;" in
  body i opc w
  = (Ret tt,
     {| net := net w;
        sent := sent w ++ [connection_request opc];
        log := log w ++ ["Cannot connect to Raspberry Pi"; msg;
                         ipAddress opc +:+ " isPrinterConnected response: No connection to Pi"];
        stdout := (stdout w ++ ["None"]) ++ verbose_line verbose opc "Not connected to Pi!";
        files := <[path_statusTxt i := opcStatusFields +:+ row]>
                   (<[path_statusCsv := default "" (files w !! path_statusCsv) +:+ row +:+ nl]>
                      (files w)) |}).
Proof.
  intros Hnet Hcls row. unfold updatePrinterStatus_body, bind at 1.
  rewrite (isPrinterConnected_unreachable opc w cls msg Hnet Hcls).
  unfold opcStatusString. cbn [truthy].
  unfold bind, ret, write, open_w, verbose_line. cbn.
  rewrite lookup_insert_eq, insert_insert_eq.
  destruct verbose; cbn; rewrite ?app_nil_r; reflexivity.
Qed.

(** [getPrinterStatus] on a controller that answers with JSON text:
    the text itself is returned. *)
Lemma getPrinterStatus_responds (opc : OctoPrintClient.t) (w : World) (r : Response)
    (j : PyVal) :
  net w (sent w) (printer_request opc) = Responds r →
  Json.loads (text r) = inr j →
  getPrinterStatus opc w
  = (Ret (PStr (text r)),
     {| net := net w; sent := sent w ++ [printer_request opc]; log := log w;
        stdout := stdout w ++ ["Accessing " +:+ rq_url (printer_request opc)
                               +:+ " using API Key " +:+ apiKey opc];
        files := files w |}).
Proof.
  intros Hnet Hj.
  unfold getPrinterStatus, get, except_ConnectionError, bind, requests_call, print.
  cbn [net sent]. fold (printer_request opc). rewrite Hnet. cbn.
  unfold bind, json_loads. rewrite Hj. cbn.
  destruct (String.eqb_spec (text r) "Printer is not operational") as [Heq|_];
    [|reflexivity].
  rewrite Heq in Hj. vm_compute in Hj. discriminate.
Qed.

Lemma str_at_path (v z : PyVal) (a b c : string) (w : World) :
  at_path v [a; b; c] = inr z → str_at v a b c w = (Ret (str z), w).
Proof.
  cbn [at_path]. unfold str_at, getitem, bind. intros H.
  destruct (subscript v a) as [|x]; [discriminate|]. cbn [lift ret].
  destruct (subscript x b) as [|y]; [discriminate|]. cbn [lift ret].
  destruct (subscript y c) as [|z']; [discriminate|]. cbn [lift ret].
  injection H as ->. reflexivity.
Qed.

(** An iteration for a client whose printer is connected and whose
    status arrives: the row carries [True], the six flags in the order
    printing, ready, operational, pausing, paused, finishing, then the
    bed temperature, then the tool temperature. *)
Lemma body_connected (i : nat) (opc : OctoPrintClient.t) (w : World) (r1 r2 : Response)
    (j1 j2 printing ready operational pausing paused finishing bed tool0 : PyVal) :
  net w (sent w) (connection_request opc) = Responds r1 →
  Json.loads (text r1) = inr j1 →
  at_path j1 ["current"; "state"] = inr (PStr "Operational") →
  net w (sent w ++ [connection_request opc]) (printer_request opc) = Responds r2 →
  Json.loads (text r2) = inr j2 →
  at_path j2 ["state"; "flags"; "printing"] = inr printing →
  at_path j2 ["state"; "flags"; "ready"] = inr ready →
  at_path j2 ["state"; "flags"; "operational"] = inr operational →
  at_path j2 ["state"; "flags"; "pausing"] = inr pausing →
  at_path j2 ["state"; "flags"; "paused"] = inr paused →
  at_path j2 ["state"; "flags"; "finishing"] = inr finishing →
  at_path j2 ["temperature"; "bed"; "actual"] = inr bed →
  at_path j2 ["temperature"; "tool0"; "actual"] = inr tool0 →
  let row := ipAddress opc +:+ ";" +:+ "True" +:+ ";" +:+ str printing +:+ ";" +:+
             str ready +:+ ";" +:+ str operational +:+ ";" +:+ str pausing +:+ ";" +:+
             str paused +:+ ";" +:+ str finishing +:+ ";" +:+ str bed +:+ ";" +:+
             str tool0 in
  body i opc w
  = (Ret tt,
     {| net := net w;
        sent := (sent w ++ [connection_request opc]) ++ [printer_request opc];
        log := log w;
        stdout := (stdout w ++ ["Accessing " +:+ rq_url (printer_request opc)
                                +:+ " using API Key " +:+ apiKey opc])
                  ++ verbose_line verbose opc (text r2);
        files := <[path_statusTxt i := opcStatusFields +:+ row]>
                   (<[path_statusCsv := default "" (files w !! path_statusCsv) +:+ row +:+ nl]>
                      (files w)) |}).
Proof.
  intros Hnet1 Hj1 Hstate Hnet2 Hj2 H1 H2 H3 H4 H5 H6 H7 H8 row.
  cbn [at_path] in Hstate.
  destruct (subscript j1 "current") as [|current] eqn:Hcurrent; [discriminate|].
  destruct (subscript current "state") as [|state] eqn:Hst; [discriminate|].
  injection Hstate as ->.
  unfold updatePrinterStatus_body, bind at 1.
  rewrite (isPrinterConnected_responds opc w r1 j1 current _ Hnet1 Hj1 Hcurrent Hst).
  unfold opcStatusString. cbn [eq_str String.eqb Ascii.eqb Bool.eqb truthy].
  unfold bind at 1. unfold bind at 1.
  rewrite (getPrinterStatus_responds opc
             {| net := net w; sent := sent w ++ [connection_request opc]; log := log w;
                stdout := stdout w; files := files w |} r2 j2 Hnet2 Hj2).
  unfold bind at 1, json_loads at 1. rewrite Hj2. cbn [lift ret].
  repeat (unfold bind at 1; erewrite str_at_path by eassumption).
  unfold bind, ret, write, open_w, verbose_line, str_add, print. cbn.
  rewrite lookup_insert_eq, insert_insert_eq.
  destruct verbose; cbn; rewrite ?app_nil_r; reflexivity.
Qed.


End StatusPhase.

(** C4: a failed status fetch aborts the cycle.  The printer of the
    first client is connected, its status request is refused:
    [getPrinterStatus] returns [None], [json.loads(None)] raises
    [TypeError] in the loop, and the aggregate file is left with the
    header and no row, neither for this client nor for the second one,
    which is in perfect order. *)
Theorem updatePrinterStatus_aborts_when_status_fetch_fails :
  ∀ verbose : bool,
    let w := Scenario.world Scenario.status_refused in
    let r := updatePrinterStatus verbose [Scenario.opc1; Scenario.opc2] w in
    fst (isPrinterConnected Scenario.opc1 w) = Ret (PBool true)
    ∧ fst (getPrinterStatus Scenario.opc1 w) = Ret PNone
    ∧ fst r = Raise TypeError
    ∧ files (snd r) !! path_statusCsv = Some opcStatusFields
    ∧ files (snd r) !! path_statusTxt 0 = None
    ∧ files (snd r) !! path_statusTxt 1 = None.
Proof. intros []; vm_compute; repeat split. Qed.

(** C10: a call that aborts does not rewrite the per-device files.  An
    earlier cycle found both printers [Closed] and wrote their rows,
    which say [False].  In the next cycle both printers are connected
    and the status request of the first one is refused: the call
    raises [TypeError] (the defect of C4) after it has truncated the
    aggregate file, which is left with the header and no row, and
    [printer0.txt] and [printer1.txt] still hold the rows of the
    earlier cycle, not the current row of their device. *)
Theorem updatePrinterStatus_abort_leaves_stale_files :
  ∀ verbose : bool,
    let registry := [Scenario.opc1; Scenario.opc2] in
    let earlier :=
      snd (updatePrinterStatus verbose registry
             (Scenario.world (Scenario.controller "Closed"))) in
    let w := {| net := Scenario.status_refused; sent := sent earlier; log := log earlier;
                stdout := stdout earlier; files := files earlier |} in
    let r := updatePrinterStatus verbose registry w in
    files w !! path_statusCsv
    = Some (opcStatusFields +:+ lines ["10.0.0.5;False;;;;;;;;"; "10.0.0.6;False;;;;;;;;"])
    ∧ fst (isPrinterConnected Scenario.opc1 w) = Ret (PBool true)
    ∧ fst (isPrinterConnected Scenario.opc2 w) = Ret (PBool true)
    ∧ fst r = Raise TypeError
    ∧ files (snd r) !! path_statusCsv = Some opcStatusFields
    ∧ files (snd r) !! path_statusTxt 0
      = Some (opcStatusFields +:+ "10.0.0.5;False;;;;;;;;")
    ∧ files (snd r) !! path_statusTxt 1
      = Some (opcStatusFields +:+ "10.0.0.6;False;;;;;;;;").
Proof. intros []; vm_compute; repeat split. Qed.

(** C6, as the code has it: when the status phase has got through the
    clients before [opc] and the poll of [opc] ends in a
    [ConnectionError] (connection refused, no route, no answer to the
    connection attempt), the phase goes on: the row of [opc], at its
    position in the aggregate file and in its per-device file, is the
    address, [None] and eight empty fields, and three records are
    logged, the last of which names the address. *)
Theorem status_row_of_unreachable_device
    (verbose : bool) (pre : list OctoPrintClient.t) (opc : OctoPrintClient.t)
    (w w1 : World) (cls : requests_exn) (msg : string) :
  updatePrinterStatus verbose pre w = (Ret tt, w1) →
  net w1 (sent w1) (connection_request opc) = Fails cls msg →
  is_ConnectionError cls = true →
  let row := ipAddress opc +:+ ";None;;;;;;;;" in
  ∃ (rows : list string) (w2 : World),
    updatePrinterStatus verbose (pre ++ [opc]) w = (Ret tt, w2)
    ∧ List.length rows = List.length pre
    ∧ files w1 !! path_statusCsv = Some (opcStatusFields +:+ lines rows)
    ∧ files w2 !! path_statusCsv = Some (opcStatusFields +:+ lines (rows ++ [row]))
    ∧ files w2 !! path_statusTxt (List.length pre) = Some (opcStatusFields +:+ row)
    ∧ log w2 = log w1 ++ ["Cannot connect to Raspberry Pi"; msg;
                          ipAddress opc +:+ " isPrinterConnected response: No connection to Pi"].
Proof.
  intros Hpre Hnet Hcls row.
  pose proof Hpre as Hloop. rewrite updatePrinterStatus_loop in Hloop.
  pose proof (fun Hc => loop_files verbose pre 0 _ w1 (Ret tt) opcStatusFields Hc Hloop)
    as Hrows.
  destruct Hrows as (rows & Hcsv & _ & Hlen & _ & _); [apply lookup_insert_eq|].
  exists rows. eexists. split.
  { rewrite updatePrinterStatus_snoc. unfold bind. rewrite Hpre.
    apply (body_unreachable verbose _ opc w1 cls msg Hnet Hcls). }
  cbn [files log]. split_and!; auto.
  - rewrite lookup_insert_ne by apply path_statusTxt_csv.
    rewrite lookup_insert_eq, Hcsv. cbn [default id]. subst row.
    by rewrite lines_snoc, !string_app_assoc.
  - apply lookup_insert_eq.
Qed.

(** The instance of C6 with a healthy first client and nothing
    listening at the address of the second. *)
Lemma status_row_of_unreachable_device_witness :
  let w := Scenario.world Scenario.first_refused in
  let w1 := snd (updatePrinterStatus false [Scenario.opc2] w) in
  let row := "10.0.0.5;None;;;;;;;;" in
  (updatePrinterStatus false [Scenario.opc2] w = (Ret tt, w1)
   ∧ net w1 (sent w1) (connection_request Scenario.opc1)
     = Fails ConnectionError "Connection refused"
   ∧ is_ConnectionError ConnectionError = true)
  ∧ ∃ (rows : list string) (w2 : World),
      updatePrinterStatus false [Scenario.opc2; Scenario.opc1] w = (Ret tt, w2)
      ∧ List.length rows = 1%nat
      ∧ files w1 !! path_statusCsv = Some (opcStatusFields +:+ lines rows)
      ∧ files w2 !! path_statusCsv = Some (opcStatusFields +:+ lines (rows ++ [row]))
      ∧ files w2 !! path_statusTxt 1 = Some (opcStatusFields +:+ row)
      ∧ log w2 = log w1 ++ ["Cannot connect to Raspberry Pi"; "Connection refused";
                            "10.0.0.5 isPrinterConnected response: No connection to Pi"].
Proof.
  intros w w1 row.
  assert (H1 : updatePrinterStatus false [Scenario.opc2] w = (Ret tt, w1))
    by (vm_compute; reflexivity).
  assert (H2 : net w1 (sent w1) (connection_request Scenario.opc1)
               = Fails ConnectionError "Connection refused") by reflexivity.
  split; [by split_and!|].
  exact (status_row_of_unreachable_device false [Scenario.opc2] Scenario.opc1 w w1
           ConnectionError "Connection refused" H1 H2 eq_refl).
Defined.

(** C6 as stated fails: for a registry of the one client [10.0.0.5]
    with nothing listening at that address, the row written is
    [10.0.0.5;None;;;;;;;;] and not [10.0.0.5;False;;;;;;;;]. *)
Lemma unreachable_row_is_not_False :
  let csv := files (snd (updatePrinterStatus false [Scenario.opc1]
                           (Scenario.world Scenario.refused))) !! path_statusCsv in
  csv = Some (opcStatusFields +:+ "10.0.0.5;None;;;;;;;;" +:+ nl)
  ∧ csv ≠ Some (opcStatusFields +:+ "10.0.0.5;False;;;;;;;;" +:+ nl).
Proof. vm_compute. split; [reflexivity|discriminate]. Qed.

(** C7: for the registry of the one client [10.0.0.5], a controller
    that reports the state [Operational], the six flags false, true,
    true, false, false, false and the temperatures 60.2 (bed) and
    210.0 (tool), the status phase returns and the row it writes, to
    the aggregate file and to the per-device file, is
    [10.0.0.5;True;False;True;True;False;False;False;60.2;210.0]. *)
Theorem status_row_of_connected_printer
    (verbose : bool) (opc : OctoPrintClient.t) (w : World) (r1 r2 : Response)
    (j1 j2 : PyVal) :
  ipAddress opc = "10.0.0.5" →
  net w (sent w) (connection_request opc) = Responds r1 →
  Json.loads (text r1) = inr j1 →
  at_path j1 ["current"; "state"] = inr (PStr "Operational") →
  net w (sent w ++ [connection_request opc]) (printer_request opc) = Responds r2 →
  Json.loads (text r2) = inr j2 →
  at_path j2 ["state"; "flags"; "printing"] = inr (PBool false) →
  at_path j2 ["state"; "flags"; "ready"] = inr (PBool true) →
  at_path j2 ["state"; "flags"; "operational"] = inr (PBool true) →
  at_path j2 ["state"; "flags"; "pausing"] = inr (PBool false) →
  at_path j2 ["state"; "flags"; "paused"] = inr (PBool false) →
  at_path j2 ["state"; "flags"; "finishing"] = inr (PBool false) →
  at_path j2 ["temperature"; "bed"; "actual"] = inr (PFloat (FDec false 602 (-1))) →
  at_path j2 ["temperature"; "tool0"; "actual"] = inr (PFloat (FDec false 2100 (-1))) →
  let row := "10.0.0.5;True;False;True;True;False;False;False;60.2;210.0" in
  let r := updatePrinterStatus verbose [opc] w in
  fst r = Ret tt
  ∧ files (snd r) !! path_statusCsv = Some (opcStatusFields +:+ row +:+ nl)
  ∧ files (snd r) !! path_statusTxt 0 = Some (opcStatusFields +:+ row).
Proof.
  intros Hip Hnet1 Hj1 Hstate Hnet2 Hj2 H1 H2 H3 H4 H5 H6 H7 H8 row r. subst r.
  rewrite updatePrinterStatus_loop. cbn [for_enumerate]. unfold bind.
  rewrite (body_connected verbose 0 opc
             {| net := net w; sent := sent w; log := log w; stdout := stdout w;
                files := <[path_statusCsv := opcStatusFields]> (files w) |}
             r1 r2 j1 j2 _ _ _ _ _ _ _ _
             Hnet1 Hj1 Hstate Hnet2 Hj2 H1 H2 H3 H4 H5 H6 H7 H8).
  cbn [fst snd files ret]. rewrite Hip. split_and!.
  - reflexivity.
  - rewrite lookup_insert_ne by apply path_statusTxt_csv.
    rewrite !lookup_insert_eq. reflexivity.
  - rewrite lookup_insert_eq. reflexivity.
Qed.

(** The instance of C7 on the wire: the two JSON bodies of
    [Scenario.controller], decoded by [Json.loads]. *)
Lemma status_row_of_connected_printer_witness :
  let w := Scenario.world (Scenario.controller "Operational") in
  let row := "10.0.0.5;True;False;True;True;False;False;False;60.2;210.0" in
  let r := updatePrinterStatus true [Scenario.opc1] w in
  fst r = Ret tt
  ∧ files (snd r) !! path_statusCsv = Some (opcStatusFields +:+ row +:+ nl)
  ∧ files (snd r) !! path_statusTxt 0 = Some (opcStatusFields +:+ row).
Proof.
  destruct (Json.loads (Scenario.connection_body "Operational")) as [e|j1] eqn:Hj1;
    vm_compute in Hj1; [discriminate|].
  destruct (Json.loads Scenario.printer_body) as [e|j2] eqn:Hj2;
    vm_compute in Hj2; [discriminate|].
  injection Hj1 as <-. injection Hj2 as <-.
  refine (status_row_of_connected_printer true Scenario.opc1
            (Scenario.world (Scenario.controller "Operational"))
            {| status_code := 200; text := Scenario.connection_body "Operational" |}
            {| status_code := 200; text := Scenario.printer_body |}
            _ _ eq_refl eq_refl _ _ eq_refl _ _ _ _ _ _ _ _ _);
    vm_compute; reflexivity.
Defined.

(** * Further properties *)

(** ** The transport helpers *)

(** X1: [get] and [post] make one attempt: whatever the outcome (a
    response, an exception they catch, an exception they let
    through), the call adds exactly one request, with the timeout of
    one second, to those made before. *)
Theorem transport_single_attempt
    (self : OctoPrintClient.t) (url : string) (headers : list (string * string))
    (json : option (list (string * string))) (w : World) :
  sent (snd (get self url headers w))
  = sent w ++ [{| rq_method := GET; rq_url := url; rq_headers := headers;
                  rq_json := None; rq_timeout := 1 |}]
  ∧ sent (snd (post self url headers json w))
    = sent w ++ [{| rq_method := POST; rq_url := url; rq_headers := headers;
                    rq_json := json; rq_timeout := 1 |}].
Proof.
  unfold get, post, except_ConnectionError, bind, requests_call.
  split; destruct (net w (sent w) _) as [r|cls msg]; cbn;
    try destruct (is_ConnectionError cls); reflexivity.
Qed.

Section Transport.

Variable self : OctoPrintClient.t.
Variables (url : string) (headers : list (string * string)).
Variable json : option (list (string * string)).

Let get_rq : Request :=
  {| rq_method := GET; rq_url := url; rq_headers := headers; rq_json := None;
     rq_timeout := 1 |}.

Let post_rq : Request :=
  {| rq_method := POST; rq_url := url; rq_headers := headers; rq_json := json;
     rq_timeout := 1 |}.

Lemma get_responds (w : World) (r : Response) :
  net w (sent w) get_rq = Responds r →
  get self url headers w
  = (Ret (Some r),
     {| net := net w; sent := sent w ++ [get_rq]; log := log w; stdout := stdout w;
        files := files w |}).
Proof.
  intros H. unfold get, except_ConnectionError, bind, requests_call.
  fold get_rq. by rewrite H.
Qed.

Lemma post_responds (w : World) (r : Response) :
  net w (sent w) post_rq = Responds r →
  post self url headers json w
  = (Ret (Some r),
     {| net := net w; sent := sent w ++ [post_rq]; log := log w; stdout := stdout w;
        files := files w |}).
Proof.
  intros H. unfold post, except_ConnectionError, bind, requests_call.
  fold post_rq. by rewrite H.
Qed.

Lemma get_caught (w : World) (cls : requests_exn) (msg : string) :
  net w (sent w) get_rq = Fails cls msg →
  is_ConnectionError cls = true →
  get self url headers w
  = (Ret None,
     {| net := net w; sent := sent w ++ [get_rq];
        log := (log w ++ ["Cannot connect to Raspberry Pi"]) ++ [msg];
        stdout := stdout w ++ ["None"]; files := files w |}).
Proof.
  intros H Hc. unfold get, except_ConnectionError, bind, requests_call.
  fold get_rq. rewrite H. cbn. by rewrite Hc.
Qed.

Lemma post_caught (w : World) (cls : requests_exn) (msg : string) :
  net w (sent w) post_rq = Fails cls msg →
  is_ConnectionError cls = true →
  post self url headers json w
  = (Ret None,
     {| net := net w; sent := sent w ++ [post_rq];
        log := (log w ++ ["Cannot connect to Raspberry Pi"]) ++ [msg];
        stdout := stdout w; files := files w |}).
Proof.
  intros H Hc. unfold post, except_ConnectionError, bind, requests_call.
  fold post_rq. rewrite H. cbn. by rewrite Hc.
Qed.

Lemma get_escapes (w : World) (cls : requests_exn) (msg : string) :
  net w (sent w) get_rq = Fails cls msg →
  is_ConnectionError cls = false →
  get self url headers w
  = (Raise (RequestException cls msg),
     {| net := net w; sent := sent w ++ [get_rq]; log := log w; stdout := stdout w;
        files := files w |}).
Proof.
  intros H Hc. unfold get, except_ConnectionError, bind, requests_call.
  fold get_rq. rewrite H. cbn. by rewrite Hc.
Qed.

Lemma post_escapes (w : World) (cls : requests_exn) (msg : string) :
  net w (sent w) post_rq = Fails cls msg →
  is_ConnectionError cls = false →
  post self url headers json w
  = (Raise (RequestException cls msg),
     {| net := net w; sent := sent w ++ [post_rq]; log := log w; stdout := stdout w;
        files := files w |}).
Proof.
  intros H Hc. unfold post, except_ConnectionError, bind, requests_call.
  fold post_rq. rewrite H. cbn. by rewrite Hc.
Qed.

End Transport.

(** ** The methods of a client *)

(** One step of a method in a world where nothing answers. *)
Ltac refused_step H :=
  let cls := fresh "cls" in
  let msg := fresh "msg" in
  let Hn := fresh "Hn" in
  let Hc := fresh "Hc" in
  match goal with
  | |- context [post ?s ?u ?h ?j ?w] =>
      destruct (H (sent w) {| rq_method := POST; rq_url := u; rq_headers := h;
                              rq_json := j; rq_timeout := 1 |})
        as (cls & msg & Hn & Hc);
      rewrite (post_caught s u h j w cls msg Hn Hc)
  | |- context [get ?s ?u ?h ?w] =>
      destruct (H (sent w) {| rq_method := GET; rq_url := u; rq_headers := h;
                              rq_json := None; rq_timeout := 1 |})
        as (cls & msg & Hn & Hc);
      rewrite (get_caught s u h w cls msg Hn Hc)
  end.

(** X2: when nothing answers at the address (every request ends in a
    [ConnectionError]), no method of the client raises: each of them
    returns [None], and the last record it logs starts with the
    address of the client.  [selectPrintJob] returns [None] as well
    and logs only the two records of [post], neither of which is about
    this client in particular. *)
Theorem unreachable_client_returns_None
    (self : OctoPrintClient.t) (path : string) (w : World) :
  refuses w →
  Forall (fun m : OctoPrintClient.t → M PyVal =>
            ∃ w', m self w = (Ret PNone, w')
                  ∧ ∃ suffix, last (log w') = Some (ipAddress self +:+ suffix))
         methods
  ∧ ∃ msg w', selectPrintJob self (PStr path) w = (Ret PNone, w')
              ∧ log w' = log w ++ ["Cannot connect to Raspberry Pi"; msg].
Proof.
  intros H. split.
  - unfold methods. repeat apply Forall_cons_2; [..|apply Forall_nil_2].
    all: unfold login, logout, connectToPrinter, disconnectFromPrinter,
           isPrinterConnected, getPrinterStatus, getCurrentPrintJob, startPrintJob.
    all: unfold bind at 1; try unfold print at 1; try unfold bind at 1;
           refused_step H;
           try (unfold bind at 1; unfold isPrinterConnected, bind at 1; refused_step H);
           unfold bind, logger_error, ret; cbn [fst snd log truthy].
    all: eexists; split; [reflexivity|].
    all: cbn [log]; rewrite last_snoc; eexists; reflexivity.
  - unfold selectPrintJob, bind at 1, str_add, ret. unfold bind at 1.
    refused_step H. eexists _, _. split; [reflexivity|].
    cbn [log]. rewrite <- app_assoc. reflexivity.
Qed.

(** The instance of X2 for [Scenario.opc1] with nothing listening. *)
Lemma unreachable_client_returns_None_witness :
  refuses (Scenario.world Scenario.refused)
  ∧ Forall (fun m : OctoPrintClient.t → M PyVal =>
              fst (m Scenario.opc1 (Scenario.world Scenario.refused)) = Ret PNone)
           methods.
Proof.
  assert (H : refuses (Scenario.world Scenario.refused)).
  { intros h rq. by exists ConnectionError, "Connection refused". }
  split; [exact H|].
  destruct (unreachable_client_returns_None Scenario.opc1 Scenario.a_gcode _ H)
    as [Hm _].
  eapply Forall_impl; [exact Hm|]. by intros m (w' & -> & _).
Defined.

(** One step of a method in a world where every request ends in the
    same exception, which is not a [ConnectionError]. *)
Ltac escaped_step H Hc :=
  match goal with
  | |- context [post ?s ?u ?h ?j ?w] =>
      rewrite (post_escapes s u h j w _ _ (H (sent w) _) Hc)
  | |- context [get ?s ?u ?h ?w] =>
      rewrite (get_escapes s u h w _ _ (H (sent w) _) Hc)
  end.

(** X3: an exception of [requests] that is not a [ConnectionError] (a
    read timeout, too many redirects) is caught nowhere: it leaves
    every method of the client, and the method logs nothing. *)
Theorem other_failures_escape_every_method
    (self : OctoPrintClient.t) (path : string) (w : World)
    (cls : requests_exn) (msg : string) :
  (∀ h rq, net w h rq = Fails cls msg) →
  is_ConnectionError cls = false →
  Forall (fun m : OctoPrintClient.t → M PyVal =>
            ∃ w', m self w = (Raise (RequestException cls msg), w') ∧ log w' = log w)
         ((fun s => selectPrintJob s (PStr path)) :: methods).
Proof.
  intros H Hc. unfold methods. repeat apply Forall_cons_2; [..|apply Forall_nil_2].
  all: unfold selectPrintJob, login, logout, connectToPrinter, disconnectFromPrinter,
         isPrinterConnected, getPrinterStatus, getCurrentPrintJob, startPrintJob.
  all: unfold bind at 1; try unfold print at 1; try unfold str_add, ret;
         try unfold bind at 1; escaped_step H Hc.
  all: eexists; split; reflexivity.
Qed.

(** The instance of X3 for a controller that accepts connections and
    never answers in time. *)
Lemma other_failures_escape_every_method_witness :
  let w := Scenario.world (fun _ _ => Fails ReadTimeout "Read timed out.") in
  Forall (fun m : OctoPrintClient.t → M PyVal =>
            fst (m Scenario.opc1 w) = Raise (RequestException ReadTimeout "Read timed out."))
         methods.
Proof.
  intros w.
  pose proof (other_failures_escape_every_method Scenario.opc1 Scenario.a_gcode w
                ReadTimeout "Read timed out." (fun _ _ => eq_refl) eq_refl) as H.
  apply Forall_cons_1 in H as [_ H].
  eapply Forall_impl; [exact H|]. by intros m (w' & -> & _).
Defined.

(** X4: a controller that answers everything with the same response is
    taken at its word, whatever the status code of the response:
    [login], [logout], [getCurrentPrintJob], [startPrintJob] and
    [selectPrintJob] return its text, [connectToPrinter] and
    [disconnectFromPrinter] its status code, and none of them logs
    anything.  A start request turned down with 409 therefore leaves no
    trace in the log. *)
Theorem status_codes_are_not_checked
    (self : OctoPrintClient.t) (path : string) (w : World) (r : Response) :
  (∀ h rq, net w h rq = Responds r) →
  Forall (fun m : OctoPrintClient.t → M PyVal =>
            ∃ w', m self w = (Ret (PStr (text r)), w') ∧ log w' = log w)
         [login; logout; getCurrentPrintJob; startPrintJob;
          fun s => selectPrintJob s (PStr path)]
  ∧ Forall (fun m : OctoPrintClient.t → M PyVal =>
              ∃ w', m self w = (Ret (PInt (status_code r)), w') ∧ log w' = log w)
           [connectToPrinter; disconnectFromPrinter].
Proof.
  intros H. split; repeat apply Forall_cons_2; try apply Forall_nil_2.
  all: unfold selectPrintJob, login, logout, connectToPrinter, disconnectFromPrinter,
         getCurrentPrintJob, startPrintJob.
  all: unfold bind at 1; try unfold str_add, ret; try unfold bind at 1.
  all: match goal with
       | |- context [post ?s ?u ?h ?j ?w] =>
           rewrite (post_responds s u h j w r (H (sent w) _))
       | |- context [get ?s ?u ?h ?w] =>
           rewrite (get_responds s u h w r (H (sent w) _))
       end.
  all: eexists; split; reflexivity.
Qed.

(** The instance of X4 for a controller that turns everything down
    with 409. *)
Lemma status_codes_are_not_checked_witness :
  let r := {| status_code := 409; text := "Printer is busy" |} in
  let w := Scenario.world (fun _ _ => Responds r) in
  fst (startPrintJob Scenario.opc1 w) = Ret (PStr "Printer is busy")
  ∧ log (snd (startPrintJob Scenario.opc1 w)) = []
  ∧ fst (connectToPrinter Scenario.opc1 w) = Ret (PInt 409).
Proof.
  intros r w.
  destruct (status_codes_are_not_checked Scenario.opc1 Scenario.a_gcode w r
              (fun _ _ => eq_refl)) as [Htext Hcode].
  apply Forall_cons_1 in Htext as [_ Htext]. apply Forall_cons_1 in Htext as [_ Htext].
  apply Forall_cons_1 in Htext as [_ Htext].
  apply Forall_cons_1 in Htext as [(w' & -> & Hlog) _].
  apply Forall_cons_1 in Hcode as [(w'' & -> & _) _].
  split_and!; [reflexivity|exact Hlog|reflexivity].
Defined.

(** X5: what [isPrinterConnected] makes of a response is decided by
    [json.loads] and the two lookups alone: a body that is not JSON,
    or is JSON without [current] and, in it, [state] (the error object
    a controller sends for a key it does not know), makes the poll
    raise [JSONDecodeError], [KeyError] or [TypeError]; nothing is
    logged in any case. *)
Theorem isPrinterConnected_decodes
    (self : OctoPrintClient.t) (w : World) (r : Response) :
  net w (sent w) (connection_request self) = Responds r →
  isPrinterConnected self w
  = (match Json.loads (text r) with
     | inl e => Raise e
     | inr rJson =>
         match at_path rJson ["current"; "state"] with
         | inl e => Raise e
         | inr state => Ret (PBool (eq_str state "Operational"))
         end
     end,
     {| net := net w; sent := sent w ++ [connection_request self]; log := log w;
        stdout := stdout w; files := files w |}).
Proof.
  intros H. unfold isPrinterConnected, bind at 1.
  rewrite (get_responds self _ _ w r H).
  unfold bind, json_loads, getitem, lift, ret, raise. cbn [at_path].
  destruct (Json.loads (text r)) as [e|rJson]; [reflexivity|].
  destruct (subscript rJson "current") as [e|current]; [reflexivity|].
  destruct (subscript current "state") as [e|state]; [reflexivity|].
  destruct (eq_str state "Operational"); reflexivity.
Qed.

(** The instance of X5 for the error object of a controller that does
    not know the key: the poll raises [KeyError]. *)
Lemma isPrinterConnected_decodes_witness :
  fst (isPrinterConnected Scenario.opc1 (Scenario.world Desk.forbidden))
  = Raise (KeyError "current").
Proof.
  rewrite (isPrinterConnected_decodes Scenario.opc1 (Scenario.world Desk.forbidden)
             {| status_code := 403;
                text := Scenario.json_text "{'error': 'Invalid API key'}" |} eq_refl).
  vm_compute. reflexivity.
Defined.

(** X6: every call of [getPrinterStatus] prints the key of the client
    on the console before it does anything else, whatever the
    controller then does. *)
Theorem getPrinterStatus_prints_the_key (self : OctoPrintClient.t) (w : World) :
  ∃ more,
    stdout (snd (getPrinterStatus self w))
    = (stdout w ++ ["Accessing " +:+ rq_url (printer_request self)
                    +:+ " using API Key " +:+ apiKey self]) ++ more.
Proof.
  unfold getPrinterStatus, bind at 1, print at 1.
  unfold get, except_ConnectionError, bind, requests_call, json_loads, lift, ret, raise,
    print, logger_error.
  cbn [net sent stdout].
  destruct (net w (sent w) _) as [r|cls msg]; cbn -[String.append].
  - destruct (Json.loads (text r)); cbn -[String.append];
      [|destruct (String.eqb (text r) _); cbn -[String.append]];
      eexists; first [reflexivity | symmetry; apply app_nil_r].
  - destruct (is_ConnectionError cls); cbn -[String.append];
      eexists; first [reflexivity | symmetry; apply app_nil_r].
Qed.

(** X7: when its own request ends in a [ConnectionError],
    [startPrintJob] polls the connection state before it logs: it
    makes a second request, and what the poll does decides the
    outcome.  A poll that returns gives [None] and one more record,
    about a busy printer when the poll is true and about the
    connection otherwise; a poll that raises makes [startPrintJob]
    raise from its own error path. *)
Theorem startPrintJob_polls_after_failure
    (self : OctoPrintClient.t) (w : World) (cls : requests_exn) (msg : string) :
  net w (sent w) (start_request self) = Fails cls msg →
  is_ConnectionError cls = true →
  startPrintJob self w
  = match isPrinterConnected self
            {| net := net w; sent := sent w ++ [start_request self];
               log := (log w ++ ["Cannot connect to Raspberry Pi"]) ++ [msg];
               stdout := stdout w; files := files w |} with
    | (Ret connected, w') =>
        (Ret PNone,
         {| net := net w'; sent := sent w';
            log := log w'
                   ++ [if truthy connected then
                         ipAddress self +:+ " startPrintJob response: "
                         +:+ "Could not start print job. Printer might be busy"
                       else
                         ipAddress self +:+ " startPrintJob response: "
                         +:+ " Could not start print job. No connection to Pi"];
            stdout := stdout w'; files := files w' |})
    | (Raise e, w') => (Raise e, w')
    end.
Proof.
  intros H Hc. unfold startPrintJob, bind at 1.
  rewrite (post_caught self _ _ _ w cls msg H Hc).
  unfold bind at 1.
  destruct (isPrinterConnected self _) as [[connected|e] w']; [|reflexivity].
  destruct (truthy connected); reflexivity.
Qed.

(** The instance of X7 with nothing listening: two requests, six
    records, the last one about the connection. *)
Lemma startPrintJob_polls_after_failure_witness :
  let r := startPrintJob Scenario.opc1 (Scenario.world Scenario.refused) in
  fst r = Ret PNone
  ∧ sent (snd r) = [start_request Scenario.opc1; connection_request Scenario.opc1]
  ∧ log (snd r)
    = ["Cannot connect to Raspberry Pi"; "Connection refused";
       "Cannot connect to Raspberry Pi"; "Connection refused";
       "10.0.0.5 isPrinterConnected response: No connection to Pi";
       "10.0.0.5 startPrintJob response:  Could not start print job. No connection to Pi"].
Proof.
  intros r. subst r.
  rewrite (startPrintJob_polls_after_failure Scenario.opc1
             (Scenario.world Scenario.refused) ConnectionError "Connection refused"
             eq_refl eq_refl).
  vm_compute. repeat split.
Defined.

(** ** The requests of a computation *)

Lemma sends_only_quiet {A} (P : Request → Prop) (c : M A) :
  (∀ w, net (snd (c w)) = net w ∧ sent (snd (c w)) = sent w) → sends_only P c.
Proof.
  intros H w. destruct (H w) as [? Hs]. split; [done|]. exists []. by rewrite app_nil_r.
Qed.

Section Sends.

Context {A B : Type}.
Variable P : Request → Prop.

Lemma sends_only_ret (a : A) : sends_only P (ret a).
Proof. by apply sends_only_quiet. Qed.

Lemma sends_only_raise (e : exn) : sends_only P (@raise A e).
Proof. by apply sends_only_quiet. Qed.

Lemma sends_only_lift (r : exn + A) : sends_only P (lift r).
Proof. destruct r; [apply sends_only_raise|apply sends_only_ret]. Qed.

Lemma sends_only_bind (c : M A) (k : A → M B) :
  sends_only P c → (∀ a, sends_only P (k a)) → sends_only P (bind c k).
Proof.
  intros Hc Hk w. unfold bind. destruct (Hc w) as (Hn & l & Hs & Hl).
  destruct (c w) as [[a|e] w1]; cbn [snd] in *; [|eauto].
  destruct (Hk a w1) as (Hn' & l' & Hs' & Hl').
  split; [congruence|]. exists (l ++ l').
  rewrite Hs', Hs, app_assoc. split; [done|]. by apply Forall_app.
Qed.

Lemma sends_only_except (c : M A) (h : string → M A) :
  sends_only P c → (∀ msg, sends_only P (h msg)) → sends_only P (except_ConnectionError c h).
Proof.
  intros Hc Hh w. unfold except_ConnectionError. destruct (Hc w) as (Hn & l & Hs & Hl).
  destruct (c w) as [[a|[]] w1]; cbn [snd] in *; eauto.
  destruct (is_ConnectionError _); cbn [snd]; [|eauto].
  destruct (Hh msg w1) as (Hn' & l' & Hs' & Hl').
  split; [congruence|]. exists (l ++ l').
  rewrite Hs', Hs, app_assoc. split; [done|]. by apply Forall_app.
Qed.

Lemma sends_only_for (l : list A) (body : nat → A → M unit) :
  (∀ i x, x ∈ l → sends_only P (body i x)) →
  ∀ i, sends_only P (for_enumerate i l body).
Proof.
  induction l as [|x l IH]; intros H i; cbn [for_enumerate].
  - apply sends_only_quiet. by intros w.
  - cut (sends_only P (bind (body i x) (fun _ => for_enumerate (S i) l body))); [done|].
    intros w. unfold bind. destruct (H i x ltac:(left) w) as (Hn & l1 & Hs & Hl).
    destruct (body i x w) as [[[]|e] w1]; cbn [snd] in *; [|eauto].
    destruct (IH (fun i y Hy => H i y ltac:(by right)) (S i) w1) as (Hn' & l' & Hs' & Hl').
    split; [congruence|]. exists (l1 ++ l').
    rewrite Hs', Hs, app_assoc. split; [done|]. by apply Forall_app.
Qed.

End Sends.

Lemma sends_only_weaken {A} (P Q : Request → Prop) (c : M A) :
  (∀ rq, P rq → Q rq) → sends_only P c → sends_only Q c.
Proof.
  intros HPQ Hc w. destruct (Hc w) as (Hn & l & Hs & Hl).
  split; [done|]. exists l. split; [done|]. eapply Forall_impl; eauto.
Qed.

Lemma sends_only_requests_call (P : Request → Prop) (rq : Request) :
  P rq → sends_only P (requests_call rq).
Proof.
  intros H w. unfold requests_call.
  destruct (net w (sent w) rq); cbn; (split; [done|]); exists [rq]; by repeat constructor.
Qed.

Create HintDb sends discriminated.

#[local] Hint Resolve sends_only_ret sends_only_raise sends_only_lift : sends.

Ltac sends :=
  repeat first
    [ progress intros
    | solve [auto with sends]
    | apply sends_only_bind
    | apply sends_only_except
    | apply sends_only_requests_call
    | solve [apply sends_only_quiet; intros [] || intros ?; done]
    | match goal with
      | |- sends_only _ (match ?x with _ => _ end) => destruct x
      | |- sends_only _ (if ?b then _ else _) => destruct b
      | |- sends_only _ (let '(_, _) := ?x in _) => destruct x
      end ].

Section SendsPrimitives.

Variable P : Request → Prop.

Lemma sends_only_print s : sends_only P (print s).
Proof. by apply sends_only_quiet. Qed.

Lemma sends_only_logger_error v : sends_only P (logger_error v).
Proof. by apply sends_only_quiet. Qed.

Lemma sends_only_open_w path : sends_only P (open_w path).
Proof. by apply sends_only_quiet. Qed.

Lemma sends_only_write path s : sends_only P (write path s).
Proof. by apply sends_only_quiet. Qed.

Lemma sends_only_open_r path : sends_only P (open_r path).
Proof. apply sends_only_quiet. intros w. unfold open_r. by destruct (files w !! path). Qed.

Lemma sends_only_getitem v key : sends_only P (getitem v key).
Proof. apply sends_only_lift. Qed.

Lemma sends_only_json_loads v : sends_only P (json_loads v).
Proof. destruct v; try apply sends_only_raise. apply sends_only_lift. Qed.

Lemma sends_only_str_add a b : sends_only P (str_add a b).
Proof. destruct b; first [apply sends_only_raise|apply sends_only_ret]. Qed.

Lemma sends_only_index {A} (l : list A) i : sends_only P (index l i).
Proof. unfold index. destruct (l !! i); [apply sends_only_ret|apply sends_only_raise]. Qed.

Lemma sends_only_column df name : sends_only P (column df name).
Proof. unfold column. repeat case_match; [apply sends_only_ret|apply sends_only_raise]. Qed.

End SendsPrimitives.

#[local] Hint Resolve sends_only_print sends_only_logger_error sends_only_open_w
  sends_only_write sends_only_open_r sends_only_getitem sends_only_json_loads
  sends_only_str_add sends_only_index sends_only_column : sends.

Lemma sends_only_str_at P v a b c : sends_only P (str_at v a b c).
Proof. unfold str_at. sends. Qed.

Lemma sends_only_get P self url headers :
  P {| rq_method := GET; rq_url := url; rq_headers := headers; rq_json := None;
       rq_timeout := 1 |} →
  sends_only P (get self url headers).
Proof. intros H. unfold get. sends. Qed.

Lemma sends_only_post P self url headers json :
  P {| rq_method := POST; rq_url := url; rq_headers := headers; rq_json := json;
       rq_timeout := 1 |} →
  sends_only P (post self url headers json).
Proof. intros H. unfold post. sends. Qed.

#[local] Hint Resolve sends_only_str_at : sends.

Lemma sends_only_isPrinterConnected P self :
  P (connection_request self) → sends_only P (isPrinterConnected self).
Proof.
  intros H. unfold isPrinterConnected. apply sends_only_bind; [by apply sends_only_get|].
  sends.
Qed.

Lemma sends_only_getPrinterStatus P self :
  P (printer_request self) → sends_only P (getPrinterStatus self).
Proof.
  intros H. unfold getPrinterStatus. apply sends_only_bind; [sends|]. intros _.
  apply sends_only_bind; [by apply sends_only_get|]. sends.
Qed.

Lemma sends_only_selectPrintJob P self gcodePath :
  (∀ path, P (select_request self path)) → sends_only P (selectPrintJob self gcodePath).
Proof.
  intros H. unfold selectPrintJob.
  destruct gcodePath as [| | | |path| | |];
    try (apply sends_only_quiet; by intros w).
  cut (sends_only P
         (r <- post self (("http://" +:+ ipAddress self) +:+ path)
                 [("Content-Type", "application/json"); ("X-Api-Key", apiKey self)]
                 (Some [("command", "select")]) ;;
          match r with
          | Some r => ret (PStr (text r))
          | None => ret PNone
          end)); [done|].
  apply sends_only_bind; [apply sends_only_post, H|sends].
Qed.

Lemma sends_only_startPrintJob P self :
  P (start_request self) → P (connection_request self) →
  sends_only P (startPrintJob self).
Proof.
  intros H1 H2. unfold startPrintJob.
  apply sends_only_bind; [by apply sends_only_post|]. intros [r|]; [sends|].
  apply sends_only_bind; [by apply sends_only_isPrinterConnected|]. sends.
Qed.

#[local] Hint Resolve sends_only_isPrinterConnected sends_only_getPrinterStatus
  sends_only_selectPrintJob sends_only_startPrintJob : sends.

Lemma sends_only_opcStatusString P opc printerIsConnected :
  P (printer_request opc) → sends_only P (opcStatusString opc printerIsConnected).
Proof. intros H. unfold opcStatusString. sends. Qed.

Lemma sends_only_body P verbose i opc :
  P (connection_request opc) → P (printer_request opc) →
  sends_only P (updatePrinterStatus_body verbose i opc).
Proof.
  intros H1 H2. unfold updatePrinterStatus_body.
  apply sends_only_bind; [by apply sends_only_isPrinterConnected|]. intros pc.
  apply sends_only_bind; [by apply sends_only_opcStatusString|]. sends.
Qed.

Lemma sends_only_updatePrinterStatus (verbose : bool) (opcs : list OctoPrintClient.t) :
  sends_only (poll_request opcs) (updatePrinterStatus verbose opcs).
Proof.
  unfold updatePrinterStatus. sends.
  apply sends_only_for. intros i opc Hopc.
  apply sends_only_body; exists opc; auto.
Qed.

(** The loop of [connectToPrinters] takes the same branch for every
    client. *)
Lemma connectToPrinters_skips (opcs : list OctoPrintClient.t) (w : World) :
  connectToPrinters opcs w = (Ret tt, w).
Proof.
  unfold connectToPrinters. cbn [truthy negb]. generalize 0%nat.
  induction opcs as [|opc opcs IH]; intros i; [reflexivity|].
  cbn [for_enumerate]. unfold bind at 1. cbn [ret]. apply IH.
Qed.



(** ** More rows of the status phase *)

Section MoreRows.

Variable verbose : bool.

Abbreviation iteration := (updatePrinterStatus_body verbose).

(** The phase after one more iteration that wrote its row. *)
Lemma phase_snoc_row (pre : list OctoPrintClient.t) (opc : OctoPrintClient.t)
    (w w1 w2 : World) (row : string) :
  updatePrinterStatus verbose pre w = (Ret tt, w1) →
  iteration (List.length pre) opc w1 = (Ret tt, w2) →
  files w2
  = <[path_statusTxt (List.length pre) := opcStatusFields +:+ row]>
      (<[path_statusCsv := default "" (files w1 !! path_statusCsv) +:+ row +:+ nl]>
         (files w1)) →
  ∃ rows : list string,
    updatePrinterStatus verbose (pre ++ [opc]) w = (Ret tt, w2)
    ∧ List.length rows = List.length pre
    ∧ files w1 !! path_statusCsv = Some (opcStatusFields +:+ lines rows)
    ∧ files w2 !! path_statusCsv = Some (opcStatusFields +:+ lines (rows ++ [row]))
    ∧ files w2 !! path_statusTxt (List.length pre) = Some (opcStatusFields +:+ row).
Proof.
  intros Hpre Hbody Hfiles.
  pose proof Hpre as Hloop. rewrite updatePrinterStatus_loop in Hloop.
  pose proof (fun Hc => loop_files verbose pre 0 _ w1 (Ret tt) opcStatusFields Hc Hloop)
    as Hrows.
  destruct Hrows as (rows & Hcsv & _ & Hlen & _ & _); [apply lookup_insert_eq|].
  exists rows. split_and!; auto.
  - rewrite updatePrinterStatus_snoc. unfold bind. by rewrite Hpre.
  - rewrite Hfiles, lookup_insert_ne by apply path_statusTxt_csv.
    rewrite lookup_insert_eq, Hcsv. cbn [default id].
    by rewrite lines_snoc, !string_app_assoc.
  - rewrite Hfiles. apply lookup_insert_eq.
Qed.

(** The phase stops at the first iteration that raises. *)
Lemma phase_raise (pre post : list OctoPrintClient.t) (opc : OctoPrintClient.t)
    (w w1 w2 : World) (e : exn) :
  updatePrinterStatus verbose pre w = (Ret tt, w1) →
  iteration (List.length pre) opc w1 = (Raise e, w2) →
  updatePrinterStatus verbose (pre ++ opc :: post) w = (Raise e, w2).
Proof.
  intros Hpre Hbody. rewrite updatePrinterStatus_loop in *.
  rewrite for_enumerate_app. unfold bind. rewrite Hpre. cbn [Nat.add].
  by apply for_enumerate_raise.
Qed.

(** An iteration for a client whose controller answers and whose
    printer is not operational. *)
Lemma body_disconnected (i : nat) (opc : OctoPrintClient.t) (w : World) (r : Response)
    (j state : PyVal) :
  net w (sent w) (connection_request opc) = Responds r →
  Json.loads (text r) = inr j →
  at_path j ["current"; "state"] = inr state →
  eq_str state "Operational" = false →
  let row := ipAddress opc +:+ ";False;;;;;;;;" in
  iteration i opc w
  = (Ret tt,
     {| net := net w; sent := sent w ++ [connection_request opc]; log := log w;
        stdout := stdout w ++ verbose_line verbose opc "Not connected to Pi!";
        files := <[path_statusTxt i := opcStatusFields +:+ row]>
                   (<[path_statusCsv := default "" (files w !! path_statusCsv) +:+ row +:+ nl]>
                      (files w)) |}).
Proof.
  intros Hnet Hj Hstate Hne row. cbn [at_path] in Hstate.
  destruct (subscript j "current") as [|current] eqn:Hcurrent; [discriminate|].
  destruct (subscript current "state") as [|state'] eqn:Hst; [discriminate|].
  injection Hstate as ->.
  unfold updatePrinterStatus_body, bind at 1.
  rewrite (isPrinterConnected_responds opc w r j current _ Hnet Hj Hcurrent Hst), Hne.
  unfold opcStatusString. cbn [truthy].
  unfold bind, ret, write, open_w, verbose_line. cbn.
  rewrite lookup_insert_eq, insert_insert_eq.
  destruct verbose; cbn; rewrite ?app_nil_r; reflexivity.
Qed.

Lemma str_at_fails (v : PyVal) (a b c : string) (e : exn) (w : World) :
  at_path v [a; b; c] = inl e → str_at v a b c w = (Raise e, w).
Proof.
  cbn [at_path]. unfold str_at, getitem, bind. intros H.
  destruct (subscript v a) as [|x]; cbn [lift ret raise]; [congruence|].
  destruct (subscript x b) as [|y]; cbn [lift ret raise]; [congruence|].
  destruct (subscript y c) as [|z]; cbn [lift ret raise]; [congruence|discriminate].
Qed.

(** An iteration for a connected printer whose status lacks one of the
    eight values: it raises what the first failing lookup raises, and
    no file is written. *)
Lemma body_missing_value (i : nat) (opc : OctoPrintClient.t) (w : World)
    (r1 r2 : Response) (j1 j2 : PyVal) :
  net w (sent w) (connection_request opc) = Responds r1 →
  Json.loads (text r1) = inr j1 →
  at_path j1 ["current"; "state"] = inr (PStr "Operational") →
  net w (sent w ++ [connection_request opc]) (printer_request opc) = Responds r2 →
  Json.loads (text r2) = inr j2 →
  ∀ e, first_error j2 status_paths = Some e →
  iteration i opc w
  = (Raise e,
     {| net := net w;
        sent := (sent w ++ [connection_request opc]) ++ [printer_request opc];
        log := log w;
        stdout := stdout w ++ ["Accessing " +:+ rq_url (printer_request opc)
                               +:+ " using API Key " +:+ apiKey opc];
        files := files w |}).
Proof.
  intros Hnet1 Hj1 Hstate Hnet2 Hj2 e Hmissing.
  cbn [at_path] in Hstate.
  destruct (subscript j1 "current") as [|current] eqn:Hcurrent; [discriminate|].
  destruct (subscript current "state") as [|state] eqn:Hst; [discriminate|].
  injection Hstate as ->.
  unfold updatePrinterStatus_body, bind at 1.
  rewrite (isPrinterConnected_responds opc w r1 j1 current _ Hnet1 Hj1 Hcurrent Hst).
  unfold opcStatusString. cbn [eq_str String.eqb Ascii.eqb Bool.eqb truthy].
  unfold bind at 1. unfold bind at 1.
  rewrite (getPrinterStatus_responds opc
             {| net := net w; sent := sent w ++ [connection_request opc]; log := log w;
                stdout := stdout w; files := files w |} r2 j2 Hnet2 Hj2).
  unfold bind at 1, json_loads at 1. rewrite Hj2. cbn [lift ret].
  unfold status_paths in Hmissing. cbn [first_error] in Hmissing.
  repeat match goal with
         | |- context [str_at j2 ?a ?b ?c] =>
             let e' := fresh "e" in
             let H := fresh "H" in
             destruct (at_path j2 [a; b; c]) as [e'|?] eqn:H;
             [ injection Hmissing as ->;
               unfold bind at 1; rewrite (str_at_fails j2 a b c e _ H); reflexivity
             | unfold bind at 1; rewrite (str_at_path j2 _ a b c _ H) ]
         end.
  discriminate.
Qed.

(** The loop over a fleet where nothing answers. *)
Lemma loop_refused (opcs : list OctoPrintClient.t) : ∀ (i : nat) (w : World) (c : string),
  refuses w →
  files w !! path_statusCsv = Some c →
  ∃ w', for_enumerate i opcs iteration w = (Ret tt, w')
        ∧ files w' !! path_statusCsv
          = Some (c +:+ lines (map (fun opc => ipAddress opc +:+ ";None;;;;;;;;") opcs))
        ∧ sent w' = sent w ++ map connection_request opcs
        ∧ List.length (log w') = (List.length (log w) + 3 * List.length opcs)%nat.
Proof.
  induction opcs as [|opc opcs IH]; intros i w c Hw Hc.
  { exists w. cbn. rewrite string_app_nil_r, app_nil_r. split_and!; auto. }
  destruct (Hw (sent w) (connection_request opc)) as (cls & msg & Hnet & Hcls).
  cbn [for_enumerate]. unfold bind.
  rewrite (body_unreachable verbose i opc w cls msg Hnet Hcls).
  match goal with |- context [for_enumerate (S i) opcs _ ?w1] => set (w1' := w1) end.
  destruct (IH (S i) w1' (c +:+ (ipAddress opc +:+ ";None;;;;;;;;") +:+ nl))
    as (w' & Hloop & Hcsv & Hsent & Hlog).
  { exact Hw. }
  { subst w1'. cbn [files]. rewrite lookup_insert_ne by apply path_statusTxt_csv.
    rewrite lookup_insert_eq, Hc. reflexivity. }
  exists w'. split; [exact Hloop|]. split_and!.
  - rewrite Hcsv. cbn [map lines]. by rewrite !string_app_assoc.
  - rewrite Hsent. subst w1'. cbn [sent map]. by rewrite <- app_assoc.
  - rewrite Hlog. subst w1'. cbn [log List.length]. rewrite length_app. cbn. lia.
Qed.

End MoreRows.

(** X10: the row of a client whose controller answers the poll with a
    state other than [Operational] is the address, [False] and eight
    empty fields; the status request is not made (the poll is the only
    request) and nothing is logged. *)
Theorem status_row_of_disconnected_printer
    (verbose : bool) (pre : list OctoPrintClient.t) (opc : OctoPrintClient.t)
    (w w1 : World) (r : Response) (j state : PyVal) :
  updatePrinterStatus verbose pre w = (Ret tt, w1) →
  net w1 (sent w1) (connection_request opc) = Responds r →
  Json.loads (text r) = inr j →
  at_path j ["current"; "state"] = inr state →
  eq_str state "Operational" = false →
  let row := ipAddress opc +:+ ";False;;;;;;;;" in
  ∃ (rows : list string) (w2 : World),
    updatePrinterStatus verbose (pre ++ [opc]) w = (Ret tt, w2)
    ∧ List.length rows = List.length pre
    ∧ files w1 !! path_statusCsv = Some (opcStatusFields +:+ lines rows)
    ∧ files w2 !! path_statusCsv = Some (opcStatusFields +:+ lines (rows ++ [row]))
    ∧ files w2 !! path_statusTxt (List.length pre) = Some (opcStatusFields +:+ row)
    ∧ sent w2 = sent w1 ++ [connection_request opc]
    ∧ log w2 = log w1.
Proof.
  intros Hpre Hnet Hj Hstate Hne row.
  pose proof (body_disconnected verbose (List.length pre) opc w1 r j state
                Hnet Hj Hstate Hne) as Hbody.
  cbn zeta in Hbody.
  destruct (phase_snoc_row verbose pre opc w w1 _ row Hpre Hbody eq_refl)
    as (rows & ? & ? & ? & ? & ?).
  exists rows. eexists. split_and!; eauto.
Qed.

(** The instance of X10 for a printer reported [Closed]. *)
Lemma status_row_of_disconnected_printer_witness :
  let w := Scenario.world (Scenario.controller "Closed") in
  ∃ (rows : list string) (w2 : World),
    updatePrinterStatus false ([] ++ [Scenario.opc1]) w = (Ret tt, w2)
    ∧ List.length rows = 0%nat
    ∧ files (snd (updatePrinterStatus false [] w)) !! path_statusCsv
      = Some (opcStatusFields +:+ lines rows)
    ∧ files w2 !! path_statusCsv
      = Some (opcStatusFields +:+ lines (rows ++ ["10.0.0.5;False;;;;;;;;"]))
    ∧ files w2 !! path_statusTxt 0 = Some (opcStatusFields +:+ "10.0.0.5;False;;;;;;;;")
    ∧ sent w2 = [connection_request Scenario.opc1]
    ∧ log w2 = [].
Proof.
  intros w.
  destruct (Json.loads (Scenario.connection_body "Closed")) as [e|j] eqn:Hj;
    vm_compute in Hj; [discriminate|]. injection Hj as <-.
  exact (status_row_of_disconnected_printer false [] Scenario.opc1 w
           (snd (updatePrinterStatus false [] w))
           {| status_code := 200; text := Scenario.connection_body "Closed" |}
           _ (PStr "Closed") eq_refl eq_refl eq_refl eq_refl eq_refl).
Defined.

(** X11: a status that lacks one of the eight values the row is built
    from (a printer with no temperature to report yet) ends the whole
    phase: the first lookup that fails raises [KeyError] or
    [TypeError], which nothing catches; the row of that client is not
    written, the clients after it are not polled, and the files stay as
    the clients before it left them. *)
Theorem missing_status_value_aborts_the_phase
    (verbose : bool) (pre post : list OctoPrintClient.t) (opc : OctoPrintClient.t)
    (w w1 : World) (r1 r2 : Response) (j1 j2 : PyVal) :
  updatePrinterStatus verbose pre w = (Ret tt, w1) →
  net w1 (sent w1) (connection_request opc) = Responds r1 →
  Json.loads (text r1) = inr j1 →
  at_path j1 ["current"; "state"] = inr (PStr "Operational") →
  net w1 (sent w1 ++ [connection_request opc]) (printer_request opc) = Responds r2 →
  Json.loads (text r2) = inr j2 →
  ∀ e, first_error j2 status_paths = Some e →
  ∃ w2,
    updatePrinterStatus verbose (pre ++ opc :: post) w = (Raise e, w2)
    ∧ files w2 = files w1
    ∧ sent w2 = sent w1 ++ [connection_request opc; printer_request opc].
Proof.
  intros Hpre Hnet1 Hj1 Hstate Hnet2 Hj2 e Hmissing.
  pose proof (body_missing_value verbose (List.length pre) opc w1 r1 r2 j1 j2
                Hnet1 Hj1 Hstate Hnet2 Hj2 e Hmissing) as Hbody.
  eexists. split_and!.
  - apply (phase_raise verbose pre post opc w w1 _ e Hpre Hbody).
  - reflexivity.
  - cbn [sent]. by rewrite <- app_assoc.
Qed.

(** The instance of X11 for a first printer without temperatures and a
    second client behind it: [KeyError] for [bed], and only the header
    in the aggregate file. *)
Lemma missing_status_value_aborts_the_phase_witness :
  let w := Scenario.world Desk.no_temperature in
  let r := updatePrinterStatus false [Scenario.opc1; Scenario.opc2] w in
  fst r = Raise (KeyError "bed")
  ∧ files (snd r) !! path_statusCsv = Some opcStatusFields
  ∧ sent (snd r) = [connection_request Scenario.opc1; printer_request Scenario.opc1].
Proof.
  intros w.
  destruct (Json.loads (Scenario.connection_body "Operational")) as [e|j1] eqn:Hj1;
    vm_compute in Hj1; [discriminate|]. injection Hj1 as <-.
  destruct (Json.loads
              (Scenario.json_text
                 ("{'state': {'flags': {'printing': false, 'ready': true, "
                  +:+ "'operational': true, 'pausing': false, 'paused': false, "
                  +:+ "'finishing': false}}, 'temperature': {}}")))
    as [e|j2] eqn:Hj2; vm_compute in Hj2; [discriminate|]. injection Hj2 as <-.
  destruct (missing_status_value_aborts_the_phase false [] [Scenario.opc2] Scenario.opc1
              w (snd (updatePrinterStatus false [] w))
              {| status_code := 200; text := Scenario.connection_body "Operational" |}
              {| status_code := 200;
                 text := Scenario.json_text
                   ("{'state': {'flags': {'printing': false, 'ready': true, "
                    +:+ "'operational': true, 'pausing': false, 'paused': false, "
                    +:+ "'finishing': false}}, 'temperature': {}}") |}
              _ _ eq_refl eq_refl eq_refl eq_refl eq_refl eq_refl
              (KeyError "bed") ltac:(vm_compute; reflexivity))
    as (w2 & Hrun & Hfiles & Hsent).
  cbn [app] in Hrun. cbv zeta. rewrite Hrun. cbn [fst snd].
  rewrite Hfiles, Hsent. split_and!; [reflexivity|vm_compute; reflexivity|reflexivity].
Defined.

(** X12: a fleet where nothing answers still gets its table: the phase
    returns, the aggregate file holds the header and one row with
    [None] per client in registry order, the phase has polled every
    client once, in that order, and has logged three records per
    client. *)
Theorem unreachable_fleet_gets_all_rows
    (verbose : bool) (opcs : list OctoPrintClient.t) (w : World) :
  refuses w →
  ∃ w', updatePrinterStatus verbose opcs w = (Ret tt, w')
        ∧ files w' !! path_statusCsv
          = Some (opcStatusFields
                  +:+ lines (map (fun opc => ipAddress opc +:+ ";None;;;;;;;;") opcs))
        ∧ sent w' = sent w ++ map connection_request opcs
        ∧ List.length (log w') = (List.length (log w) + 3 * List.length opcs)%nat.
Proof.
  intros Hw. rewrite updatePrinterStatus_loop.
  apply (loop_refused verbose opcs 0
           {| net := net w; sent := sent w; log := log w; stdout := stdout w;
              files := <[path_statusCsv := opcStatusFields]> (files w) |}
           opcStatusFields Hw).
  apply lookup_insert_eq.
Qed.

(** The instance of X12 for two clients. *)
Lemma unreachable_fleet_gets_all_rows_witness :
  let w := Scenario.world Scenario.refused in
  refuses w
  ∧ ∃ w', updatePrinterStatus false [Scenario.opc1; Scenario.opc2] w = (Ret tt, w')
          ∧ files w' !! path_statusCsv
            = Some (opcStatusFields
                    +:+ lines ["10.0.0.5;None;;;;;;;;"; "10.0.0.6;None;;;;;;;;"])
          ∧ sent w' = [connection_request Scenario.opc1; connection_request Scenario.opc2]
          ∧ List.length (log w') = 6%nat.
Proof.
  intros w.
  assert (H : refuses w) by (intros h rq; by exists ConnectionError, "Connection refused").
  split; [exact H|].
  exact (unreachable_fleet_gets_all_rows false [Scenario.opc1; Scenario.opc2] w H).
Defined.

(** ** More of the command phase *)

(** The command loop over a registry with one more client at its end. *)
Lemma run_commands_snoc (pre : list OctoPrintClient.t) (opc : OctoPrintClient.t)
    (commandList : list (list PyVal)) (w : World) :
  run_commands (pre ++ [opc]) commandList w
  = (run_commands pre commandList ;; run_commands_at (List.length pre) opc commandList) w.
Proof.
  unfold run_commands. rewrite for_enumerate_app. unfold bind.
  destruct (for_enumerate 0 pre _ w) as [[[]|e] w1]; [|reflexivity].
  cbn [for_enumerate Nat.add truthy].
  change (bind (run_commands_at (List.length pre) opc commandList) (fun _ => ret tt) w1
          = run_commands_at (List.length pre) opc commandList w1).
  unfold bind at 1.
  destruct (run_commands_at (List.length pre) opc commandList w1) as [[[]|?] ?];
    reflexivity.
Qed.

(** The command loop stops at the first client whose round raises. *)
Lemma run_commands_raise (pre post : list OctoPrintClient.t) (opc : OctoPrintClient.t)
    (commandList : list (list PyVal)) (w w1 w2 : World) (e : exn) :
  run_commands pre commandList w = (Ret tt, w1) →
  run_commands_at (List.length pre) opc commandList w1 = (Raise e, w2) →
  run_commands (pre ++ opc :: post) commandList w = (Raise e, w2).
Proof.
  unfold run_commands.
  set (body := fun (i : nat) (opc : OctoPrintClient.t) => _). intros Hpre Hat.
  rewrite for_enumerate_app. unfold bind. rewrite Hpre. cbn [Nat.add].
  apply for_enumerate_raise. subst body. cbn [truthy]. exact Hat.
Qed.

Lemma run_commands_skips (opcs : list OctoPrintClient.t) (ips commands arguments : list PyVal)
    (w : World) : ∀ k,
  (∀ i opc, opcs !! i = Some opc → skipped opc ips commands (k + i)) →
  for_enumerate k opcs
    (fun i opc =>
       if truthy (PMethod "isPrinterConnected")
       then run_commands_at i opc [ips; commands; arguments] else ret tt) w
  = (Ret tt, w).
Proof.
  induction opcs as [|opc opcs IH]; intros k H; [reflexivity|].
  cbn [for_enumerate truthy]. unfold bind at 1.
  destruct (H 0%nat opc eq_refl) as (ip & Hip & Hskip).
  rewrite Nat.add_0_r in Hip, Hskip.
  assert (Hat : run_commands_at k opc [ips; commands; arguments] w = (Ret tt, w)).
  { unfold run_commands_at, bind, index. cbn [lookup list_lookup ret]. rewrite Hip.
    cbn [ret].
    destruct Hskip as [->|(command & Hc & Hne)]; [reflexivity|].
    destruct (eq_str ip (ipAddress opc)); [|reflexivity].
    rewrite Hc. cbn [ret]. by rewrite Hne. }
  rewrite Hat. apply IH. intros i opc' Hi.
  replace (S k + i)%nat with (k + S i)%nat by lia. by apply H.
Qed.

(** X13: commands are matched to clients by position only.  When at
    every position of the registry the command has another address
    than the client there, or is not [print], the loop sends nothing,
    logs nothing and returns: a command for a client of the registry
    that stands in another row is dropped without a word. *)
Theorem commands_out_of_position_are_dropped
    (opcs : list OctoPrintClient.t) (ips commands arguments : list PyVal) (w : World) :
  (∀ i opc, opcs !! i = Some opc → skipped opc ips commands i) →
  run_commands opcs [ips; commands; arguments] w = (Ret tt, w).
Proof.
  intros H. apply (run_commands_skips opcs ips commands arguments w 0 H).
Qed.

(** The instance of X13 for two [print] commands listed in the other
    order than their clients. *)
Lemma commands_out_of_position_are_dropped_witness :
  let w := Scenario.world (Scenario.controller "Operational") in
  run_commands [Scenario.opc1; Scenario.opc2]
    [[PStr "10.0.0.6"; PStr "10.0.0.5"]; [PStr "print"; PStr "print"];
     [PStr Scenario.a_gcode; PStr Scenario.a_gcode]] w
  = (Ret tt, w).
Proof.
  intros w. apply commands_out_of_position_are_dropped.
  intros [|[|i]] opc [=]; subst.
  - exists (PStr "10.0.0.6"). split; [reflexivity|]. by left.
  - exists (PStr "10.0.0.5"). split; [reflexivity|]. by left.
Defined.

(** X14: the start request does not wait for the select request to
    have worked.  For a [print] command at the position of its client,
    when the select request ends in a [ConnectionError] and the start
    request is answered, the loop still sends the start request right
    after: the printer starts whatever file was selected before.  The
    two records of [post] are all that is logged. *)
Theorem start_follows_a_failed_select
    (pre : list OctoPrintClient.t) (opc : OctoPrintClient.t)
    (ips commands arguments : list PyVal) (path : string) (w w1 : World)
    (cls : requests_exn) (msg : string) (r : Response) :
  run_commands pre [ips; commands; arguments] w = (Ret tt, w1) →
  ips !! List.length pre = Some (PStr (ipAddress opc)) →
  commands !! List.length pre = Some (PStr "print") →
  arguments !! List.length pre = Some (PStr path) →
  net w1 (sent w1) (select_request opc path) = Fails cls msg →
  is_ConnectionError cls = true →
  net w1 (sent w1 ++ [select_request opc path]) (start_request opc) = Responds r →
  ∃ w2,
    run_commands (pre ++ [opc]) [ips; commands; arguments] w = (Ret tt, w2)
    ∧ sent w2 = sent w1 ++ [select_request opc path; start_request opc]
    ∧ log w2 = log w1 ++ ["Cannot connect to Raspberry Pi"; msg].
Proof.
  intros Hpre Hip Hcommand Hargument Hselect Hcls Hstart.
  rewrite run_commands_snoc. unfold bind at 1. rewrite Hpre.
  unfold run_commands_at, bind at 1, index at 1. cbn [lookup list_lookup ret].
  unfold bind at 1, index at 1. rewrite Hip. cbn [ret eq_str]. rewrite String.eqb_refl.
  unfold bind at 1, index at 1. cbn [lookup list_lookup ret].
  unfold bind at 1, index at 1. rewrite Hcommand. cbn [ret eq_str String.eqb Ascii.eqb Bool.eqb].
  unfold bind at 1, index at 1. cbn [lookup list_lookup ret].
  unfold bind at 1, index at 1. rewrite Hargument. cbn [ret].
  unfold bind at 1, selectPrintJob, str_add. unfold bind at 1. cbn [ret].
  unfold bind at 1.
  rewrite (post_caught opc _ _ _ w1 cls msg Hselect Hcls).
  unfold bind at 1, startPrintJob, bind at 1. cbn [ret].
  erewrite post_responds by exact Hstart.
  eexists. split; [reflexivity|]. cbn [sent log]. by rewrite <- !app_assoc.
Qed.

(** The instance of X14 for [Scenario.opc1] with its select request
    refused. *)
Lemma start_follows_a_failed_select_witness :
  let w := Scenario.world Desk.select_refused in
  ∃ w2,
    run_commands [Scenario.opc1] Scenario.print_command w = (Ret tt, w2)
    ∧ sent w2 = [select_request Scenario.opc1 Scenario.a_gcode;
                 start_request Scenario.opc1]
    ∧ log w2 = ["Cannot connect to Raspberry Pi"; "Connection refused"].
Proof.
  intros w.
  exact (start_follows_a_failed_select [] Scenario.opc1 [PStr "10.0.0.5"] [PStr "print"]
           [PStr Scenario.a_gcode] Scenario.a_gcode w w ConnectionError
           "Connection refused" {| status_code := 204; text := "" |}
           eq_refl eq_refl eq_refl eq_refl eq_refl eq_refl eq_refl).
Defined.

(** X15: a [print] command whose argument is not text (the value
    pandas gives an empty cell is a float) raises [TypeError] when the
    address is put together, before any request for that client; the
    loop ends there and the clients after it get nothing. *)
Theorem command_without_text_argument_raises
    (pre post : list OctoPrintClient.t) (opc : OctoPrintClient.t)
    (ips commands arguments : list PyVal) (argument : PyVal) (w w1 : World) :
  run_commands pre [ips; commands; arguments] w = (Ret tt, w1) →
  ips !! List.length pre = Some (PStr (ipAddress opc)) →
  commands !! List.length pre = Some (PStr "print") →
  arguments !! List.length pre = Some argument →
  (∀ path, argument ≠ PStr path) →
  run_commands (pre ++ opc :: post) [ips; commands; arguments] w = (Raise TypeError, w1).
Proof.
  intros Hpre Hip Hcommand Hargument Hne.
  apply (run_commands_raise pre post opc _ w w1 w1 TypeError Hpre).
  unfold run_commands_at, bind, index. cbn [lookup list_lookup ret].
  rewrite Hip. cbn [ret eq_str]. rewrite String.eqb_refl, Hcommand.
  cbn [ret eq_str String.eqb Ascii.eqb Bool.eqb]. rewrite Hargument.
  unfold selectPrintJob, bind, str_add.
  destruct argument; try reflexivity. by destruct (Hne s).
Qed.

(** The instance of X15 for an empty argument cell in front of a
    second client. *)
Lemma command_without_text_argument_raises_witness :
  let w := Scenario.world (Scenario.controller "Operational") in
  run_commands [Scenario.opc1; Scenario.opc2]
    [[PStr "10.0.0.5"; PStr "10.0.0.6"]; [PStr "print"; PStr "print"];
     [PFloat FNan; PStr Scenario.a_gcode]] w
  = (Raise TypeError, w).
Proof.
  intros w.
  exact (command_without_text_argument_raises [] [Scenario.opc2] Scenario.opc1
           [PStr "10.0.0.5"; PStr "10.0.0.6"] [PStr "print"; PStr "print"]
           [PFloat FNan; PStr Scenario.a_gcode] (PFloat FNan) w w
           eq_refl eq_refl eq_refl eq_refl ltac:(discriminate)).
Defined.

(** ** More of the command file *)

Section MoreCommandFile.

Variable verbose : bool.
Variable path : string.
Variable pandas_read_csv : string → ascii → nat → exn + list (string * list PyVal).
Variable sniff_sample : string → exn + ascii.

(** What pandas makes of the file does not depend on the world. *)
Lemma read_commands_world (content : string) (delimiter : ascii) (header : nat)
    (w1 w2 : World) :
  fst (read_commands pandas_read_csv content delimiter header w1)
  = fst (read_commands pandas_read_csv content delimiter header w2).
Proof.
  unfold read_commands, bind, lift, column, ret, raise.
  destruct (pandas_read_csv content delimiter header) as [e|df]; [reflexivity|].
  repeat case_match; simplify_eq/=; reflexivity.
Qed.

(** The part of [getCommandList] after the first cell is read. *)
Lemma getCommandList_cell (content cell : string) (row : list string)
    (rows : list (list string)) (w : World) (res : Result (list (list PyVal))) (w' : World) :
  files w !! path = Some content →
  Csv.reader_list content = inr ((cell :: row) :: rows) →
  getCommandList verbose path pandas_read_csv sniff_sample w = (res, w') →
  (cell = "sep=;" ∧ res = fst (read_commands pandas_read_csv content ";" 1 w))
  ∨ (cell = "sep=," ∧ res = fst (read_commands pandas_read_csv content "," 1 w))
  ∨ (cell ≠ "sep=;" ∧ cell ≠ "sep=," ∧ res = Raise CsvError).
Proof.
  intros Hfile Hrows H. unfold getCommandList in H.
  unfold bind at 1, open_r at 1 in H. rewrite Hfile in H.
  unfold bind at 1 in H. rewrite Hrows in H. cbn [lift ret] in H.
  unfold bind at 1 in H.
  set (wp := {| net := net w; sent := sent w; log := log w;
                stdout := stdout w ++ ["First row in command CSV: " +:+ " " +:+ cell];
                files := files w |}).
  assert (Hcont : ∀ w0 : World, files w0 = files w →
            ∀ delimiter,
              fst (bind (open_r path)
                     (fun content => read_commands pandas_read_csv content delimiter 1) w0)
              = fst (read_commands pandas_read_csv content delimiter 1 w)).
  { intros w0 Hw0 d. unfold bind at 1, open_r. rewrite Hw0, Hfile.
    apply read_commands_world. }
  assert (Hstep : ∀ w0 : World, files w0 = files w →
            (bind (index ((cell :: row) :: rows) 0) (fun row0 =>
             bind (index row0 0) (fun cell0 =>
             bind (if String.eqb cell0 "sep=;" then ret (";"%char, 1%nat)
                   else bind (index ((cell :: row) :: rows) 0) (fun row1 =>
                        bind (index row1 0) (fun cell1 =>
                        if String.eqb cell1 "sep=," then ret (","%char, 1%nat)
                        else bind (lift (Sniffer_sniff sniff_sample (read 1024 "")))
                               (fun delimiter => ret (delimiter, 0%nat)))))
               (fun format => let '(delimiter, header) := format in
                  bind (open_r path)
                    (fun content => read_commands pandas_read_csv content delimiter header))))
             w0 = (res, w')) →
            (cell = "sep=;" ∧ res = fst (read_commands pandas_read_csv content ";" 1 w))
            ∨ (cell = "sep=," ∧ res = fst (read_commands pandas_read_csv content "," 1 w))
            ∨ (cell ≠ "sep=;" ∧ cell ≠ "sep=," ∧ res = Raise CsvError)).
  { intros w0 Hw0 H0.
    unfold bind at 1, index at 1 in H0. cbn [lookup list_lookup ret] in H0.
    unfold bind at 1, index at 1 in H0. cbn [lookup list_lookup ret] in H0.
    unfold bind at 1 in H0.
    destruct (String.eqb_spec cell "sep=;") as [->|Hne1].
    - left. split; [done|]. cbn [ret] in H0.
      rewrite <- (Hcont w0 Hw0 ";"%char). by rewrite H0.
    - right. unfold bind at 1, index at 1 in H0. cbn [lookup list_lookup ret] in H0.
      unfold bind at 1, index at 1 in H0. cbn [lookup list_lookup ret] in H0.
      destruct (String.eqb_spec cell "sep=,") as [->|Hne2].
      + left. split; [done|]. cbn [ret] in H0.
        rewrite <- (Hcont w0 Hw0 ","%char). by rewrite H0.
      + right. split_and!; [done..|].
        unfold bind at 1 in H0. cbn in H0. congruence. }
  destruct verbose.
  - apply (Hstep wp eq_refl).
    unfold bind at 1, index at 1 in H. cbn [lookup list_lookup ret] in H.
    unfold bind at 1, index at 1 in H. cbn [lookup list_lookup ret] in H.
    unfold bind at 1, print at 1 in H. unfold bind at 1 in H. cbn [ret] in H.
    exact H.
  - apply (Hstep w eq_refl). cbn [ret] in H. exact H.
Qed.

(** X16: [getCommandList] returns only for a file whose first cell is
    one of the two markers, and then what it returns is what pandas
    reads with the delimiter of the marker and the second line as
    header.  For every other file it raises: the branch that is meant
    to infer the delimiter samples a file that has been read to its
    end, so the sniffer gets an empty sample; a missing file, an empty
    file and an empty first line raise before that. *)
Theorem getCommandList_needs_a_marker
    (w w' : World) (commandList : list (list PyVal)) :
  getCommandList verbose path pandas_read_csv sniff_sample w = (Ret commandList, w') →
  ∃ (content cell : string) (row : list string) (rows : list (list string))
    (delimiter : ascii),
    files w !! path = Some content
    ∧ Csv.reader_list content = inr ((cell :: row) :: rows)
    ∧ ((cell = "sep=;" ∧ delimiter = ";"%char) ∨ (cell = "sep=," ∧ delimiter = ","%char))
    ∧ fst (read_commands pandas_read_csv content delimiter 1 w) = Ret commandList.
Proof.
  intros H.
  destruct (files w !! path) as [content|] eqn:Hfile;
    [|unfold getCommandList, bind at 1, open_r at 1 in H; by rewrite Hfile in H].
  destruct (Csv.reader_list content) as [e|[|[|cell row] rows]] eqn:Hrows.
  - unfold getCommandList, bind at 1, open_r at 1 in H. rewrite Hfile in H.
    unfold bind at 1 in H. by rewrite Hrows in H.
  - unfold getCommandList, bind at 1, open_r at 1 in H. rewrite Hfile in H.
    unfold bind at 1 in H. rewrite Hrows in H. cbn [lift ret] in H.
    by destruct verbose.
  - unfold getCommandList, bind at 1, open_r at 1 in H. rewrite Hfile in H.
    unfold bind at 1 in H. rewrite Hrows in H. cbn [lift ret] in H.
    by destruct verbose.
  - destruct (getCommandList_cell content cell row rows w _ w' Hfile Hrows H)
      as [[-> Hres]|[[-> Hres]|(_ & _ & [=])]].
    + exists content, "sep=;", row, rows, ";"%char. split_and!; auto.
    + exists content, "sep=,", row, rows, ","%char. split_and!; auto.
Qed.

End MoreCommandFile.

(** The instance of X16 for a file with the marker [sep=;]. *)
Lemma getCommandList_needs_a_marker_witness :
  let w := {| net := Scenario.refused; sent := []; log := []; stdout := [];
              files := {["PrinterCommands.csv" := Desk.commands_csv]} |} in
  getCommandList false "PrinterCommands.csv" Desk.read_commands_csv Desk.sniff_semicolon w
  = (Ret Scenario.print_command, w)
  ∧ ∃ (content cell : string) (row : list string) (rows : list (list string))
      (delimiter : ascii),
      files w !! "PrinterCommands.csv" = Some content
      ∧ Csv.reader_list content = inr ((cell :: row) :: rows)
      ∧ ((cell = "sep=;" ∧ delimiter = ";"%char) ∨ (cell = "sep=," ∧ delimiter = ","%char))
      ∧ fst (read_commands Desk.read_commands_csv content delimiter 1 w)
        = Ret Scenario.print_command.
Proof.
  intros w.
  assert (H : getCommandList false "PrinterCommands.csv" Desk.read_commands_csv
                Desk.sniff_semicolon w = (Ret Scenario.print_command, w))
    by (vm_compute; reflexivity).
  split; [exact H|].
  exact (getCommandList_needs_a_marker false "PrinterCommands.csv" Desk.read_commands_csv
           Desk.sniff_semicolon w w Scenario.print_command H).
Defined.

(** What [getCommandList] leaves as it was. *)
Lemma getCommandList_frame
    (verbose : bool) (path : string)
    (pandas_read_csv : string → ascii → nat → exn + list (string * list PyVal))
    (sniff_sample : string → exn + ascii) (w : World) :
  let w' := snd (getCommandList verbose path pandas_read_csv sniff_sample w) in
  files w' = files w ∧ sent w' = sent w ∧ log w' = log w ∧ net w' = net w
  ∧ (verbose = false → stdout w' = stdout w).
Proof.
  unfold getCommandList, bind, open_r, lift, index, print, column, ret, raise,
    Sniffer_sniff, read.
  destruct (files w !! path) as [content|] eqn:Hfile; [|by cbn].
  destruct (Csv.reader_list content) as [e|[|[|cell row] rows]]; [by cbn| | |];
    destruct verbose; cbn [lookup list_lookup snd files sent log net stdout];
    rewrite ?Hfile; try done.
  all: destruct (String.eqb cell "sep=;"); [|destruct (String.eqb cell "sep=,")].
  all: cbn [snd files sent log net stdout take list_ascii_of_string
              string_of_list_ascii String.eqb]; rewrite ?Hfile; try done.
  all: destruct (pandas_read_csv content _ 1%nat) as [e|df]; [done|].
  all: repeat case_match; simplify_eq/=; done.
Qed.

(** X17: [getCommandList] only reads.  Whether it returns or raises,
    the files are as before (the command file is not emptied once it
    has been parsed, so the next run finds the same commands), no
    request has been made and nothing has been logged. *)
Theorem getCommandList_only_reads
    (verbose : bool) (path : string)
    (pandas_read_csv : string → ascii → nat → exn + list (string * list PyVal))
    (sniff_sample : string → exn + ascii) (w : World) :
  let w' := snd (getCommandList verbose path pandas_read_csv sniff_sample w) in
  files w' = files w ∧ sent w' = sent w ∧ log w' = log w ∧ net w' = net w
  ∧ (verbose = false → stdout w' = stdout w).
Proof. apply getCommandList_frame. Qed.

(** ** The device list *)

Section DeviceList.

Variable sniff_sample : string → exn + ascii.
Variable path : string.
Variable pandas_read_text : string → ascii → nat → exn + list (string * list string).
Variable exn_str : exn → string.

Abbreviation import := (importPrinterList sniff_sample path pandas_read_text exn_str).

Lemma text_column_col (dataframe : list (string * list string)) (name : string) (w : World) :
  text_column dataframe name w
  = (match text_col dataframe name with
     | Some values => Ret values
     | None => Raise (AttributeError name)
     end, w).
Proof.
  unfold text_column, text_col.
  destruct (list_find _ dataframe) as [[? [? ?]]|]; reflexivity.
Qed.

(** The loop appends the clients of the rows that all four lists
    have, in row order. *)
Lemma append_clients_rows (ips apis users passes : list string) :
  ∀ (n k : nat) (opcs : list OctoPrintClient.t),
    (k + n)%nat = List.length ips →
    snd (append_clients (seq k n) ips apis users passes opcs)
    = opcs ++ clients (drop k ips) (drop k apis) (drop k users) (drop k passes).
Proof.
  induction n as [|n IH]; intros k opcs Hk.
  - cbn. rewrite (drop_ge ips k) by lia. cbn. by rewrite app_nil_r.
  - cbn [seq append_clients].
    destruct (ips !! k) as [ip|] eqn:Hip;
      [|apply lookup_ge_None in Hip; lia].
    rewrite (drop_S ips ip k Hip).
    destruct (apis !! k) as [api|] eqn:Hapi;
      [rewrite (drop_S apis api k Hapi)
      |rewrite (drop_ge apis k) by (by apply lookup_ge_None);
       cbn; by rewrite app_nil_r].
    destruct (users !! k) as [user|] eqn:Huser;
      [rewrite (drop_S users user k Huser)
      |rewrite (drop_ge users k) by (by apply lookup_ge_None);
       cbn; by rewrite app_nil_r].
    destruct (passes !! k) as [pass|] eqn:Hpass;
      [rewrite (drop_S passes pass k Hpass)
      |rewrite (drop_ge passes k) by (by apply lookup_ge_None);
       cbn; by rewrite app_nil_r].
    rewrite IH by lia. cbn [clients]. by rewrite <- app_assoc.
Qed.

(** With lists as long as the first one, the loop gets through. *)
Lemma append_clients_returns (ips apis users passes : list string) :
  (List.length ips ≤ List.length apis)%nat →
  (List.length ips ≤ List.length users)%nat →
  (List.length ips ≤ List.length passes)%nat →
  ∀ (n k : nat) (opcs : list OctoPrintClient.t),
    (k + n)%nat = List.length ips →
    fst (append_clients (seq k n) ips apis users passes opcs) = Ret tt.
Proof.
  intros Ha Hu Hp. induction n as [|n IH]; intros k opcs Hk; [reflexivity|].
  cbn [seq append_clients].
  destruct (lookup_lt_is_Some_2 ips k ltac:(lia)) as [ip ->].
  destruct (lookup_lt_is_Some_2 apis k ltac:(lia)) as [api ->].
  destruct (lookup_lt_is_Some_2 users k ltac:(lia)) as [user ->].
  destruct (lookup_lt_is_Some_2 passes k ltac:(lia)) as [pass ->].
  apply IH. lia.
Qed.


(** X19: for a device list that the sniffer and pandas can read, with
    its four columns equally long, the new clients are those of the
    rows, one per row and in row order, each with the address, key,
    user name and password of its row; nothing is logged or
    printed. *)
Theorem importPrinterList_rows
    (opcs : list OctoPrintClient.t) (w : World) (content : string) (delimiter : ascii)
    (dataframe : list (string * list string)) (ips apis users passes : list string) :
  files w !! path = Some content →
  Sniffer_sniff sniff_sample (read 1024 content) = inr delimiter →
  pandas_read_text content delimiter 0 = inr dataframe →
  text_col dataframe "ipAddress" = Some ips →
  text_col dataframe "apiKey" = Some apis →
  text_col dataframe "username" = Some users →
  text_col dataframe "password" = Some passes →
  List.length apis = List.length ips →
  List.length users = List.length ips →
  List.length passes = List.length ips →
  import opcs w = (Ret (opcs ++ clients ips apis users passes), w)
  ∧ List.length (clients ips apis users passes) = List.length ips.
Proof.
  intros Hfile Hsniff Hpandas Hip Hapi Huser Hpass Ha Hu Hp. split.
  - unfold importPrinterList, bind, open_r, lift.
    rewrite Hfile, Hsniff. cbn [ret]. rewrite Hfile, Hpandas. cbn [ret].
    rewrite !text_column_col, Hip, Hapi, Huser, Hpass. cbn [ret].
    pose proof (append_clients_rows ips apis users passes (List.length ips) 0 opcs eq_refl)
      as Hrows.
    pose proof (append_clients_returns ips apis users passes ltac:(lia) ltac:(lia)
                  ltac:(lia) (List.length ips) 0 opcs eq_refl) as Hret.
    destruct (append_clients _ ips apis users passes opcs) as [res opcs'].
    cbn [fst snd] in *. by subst.
  - clear -Ha Hu Hp. revert apis users passes Ha Hu Hp.
    induction ips as [|ip ips IH]; intros [|api apis] [|user users] [|pass passes];
      cbn; try lia. intros. f_equal. apply IH; lia.
Qed.

(** X20: a device list that is missing or empty leaves the registry as
    it is.  The exception ([FileNotFoundError] from [open], [csv.Error]
    from the sniffer, which finds no delimiter in an empty sample) is
    caught and logged; the hint that follows goes to the console only,
    and the second record of the log is the text [None]. *)
Theorem importPrinterList_without_a_list
    (opcs : list OctoPrintClient.t) (w : World) (e : exn) :
  (files w !! path = None ∧ e = FileNotFoundError path)
  ∨ (files w !! path = Some "" ∧ e = CsvError) →
  import opcs w
  = (Ret opcs,
     {| net := net w; sent := sent w; log := (log w ++ [exn_str e]) ++ ["None"];
        stdout := stdout w ++ [import_hint]; files := files w |}).
Proof.
  unfold importPrinterList, bind, open_r, lift.
  intros [[Hfile ->]|[Hfile ->]]; rewrite Hfile; reflexivity.
Qed.

End DeviceList.

(** The instance of X19 for a device list of two rows: the registry
    gets the clients [Scenario.opc1] and [Scenario.opc2]. *)
Lemma importPrinterList_rows_witness :
  let w := {| net := Scenario.refused; sent := []; log := []; stdout := [];
              files := {["ListOfPrinters.csv" := Desk.printers_csv]} |} in
  importPrinterList Desk.sniff_semicolon "ListOfPrinters.csv" Desk.read_printers
    Desk.exn_name [] w
  = (Ret [Scenario.opc1; Scenario.opc2], w)
  ∧ List.length [Scenario.opc1; Scenario.opc2] = 2%nat.
Proof.
  intros w.
  exact (importPrinterList_rows Desk.sniff_semicolon "ListOfPrinters.csv" Desk.read_printers
           Desk.exn_name [] w Desk.printers_csv ";"%char
           [("ipAddress", ["10.0.0.5"; "10.0.0.6"]); ("apiKey", ["K1"; "K2"]);
            ("username", ["u"; "u"]); ("password", ["p"; "p"])]
           ["10.0.0.5"; "10.0.0.6"] ["K1"; "K2"] ["u"; "u"] ["p"; "p"]
           eq_refl eq_refl eq_refl eq_refl eq_refl eq_refl eq_refl eq_refl eq_refl eq_refl).
Defined.

(** The instance of X20 for a run without a device list. *)
Lemma importPrinterList_without_a_list_witness :
  importPrinterList Desk.sniff_semicolon "ListOfPrinters.csv" Desk.read_printers
    Desk.exn_name [Scenario.opc1] (Scenario.world Scenario.refused)
  = (Ret [Scenario.opc1],
     {| net := Scenario.refused; sent := [];
        log := ["No such file or directory: ListOfPrinters.csv"; "None"];
        stdout := ["ListOfPrinters.csv may be missing or of invalid format"];
        files := ∅ |}).
Proof.
  exact (importPrinterList_without_a_list Desk.sniff_semicolon "ListOfPrinters.csv"
           Desk.read_printers Desk.exn_name [Scenario.opc1] (Scenario.world Scenario.refused)
           (FileNotFoundError "ListOfPrinters.csv") (or_introl (conj eq_refl eq_refl))).
Defined.

(** ** A run without a device list *)

(** X21: a run that finds no device list, or an empty one, does not
    stop there.  It goes on with an empty registry: it makes no
    request, it replaces the aggregate status file by the header
    alone, whatever rows an earlier run had left in it, and it ends
    as [getCommandList] ends on the files it then finds, so with the
    exception of that function when the command file cannot be
    read. *)
Theorem script_without_a_list
    (verbose : bool) (path_PrinterCommands : string)
    (pandas_read_csv : string → ascii → nat → exn + list (string * list PyVal))
    (sniff_sample : string → exn + ascii) (path_ListOfPrinters : string)
    (pandas_read_text : string → ascii → nat → exn + list (string * list string))
    (exn_str : exn → string) (w : World) (e : exn) :
  (files w !! path_ListOfPrinters = None ∧ e = FileNotFoundError path_ListOfPrinters)
  ∨ (files w !! path_ListOfPrinters = Some "" ∧ e = CsvError) →
  let run := script verbose path_PrinterCommands pandas_read_csv sniff_sample
               path_ListOfPrinters pandas_read_text exn_str in
  run w
  = (getCommandList verbose path_PrinterCommands pandas_read_csv sniff_sample ;; ret tt)
      {| net := net w; sent := sent w; log := (log w ++ [exn_str e]) ++ ["None"];
         stdout := stdout w ++ [import_hint];
         files := <[path_statusCsv := opcStatusFields]> (files w) |}
  ∧ sent (snd (run w)) = sent w
  ∧ files (snd (run w)) = <[path_statusCsv := opcStatusFields]> (files w).
Proof.
  intros Hlist run.
  set (w1 := {| net := net w; sent := sent w; log := (log w ++ [exn_str e]) ++ ["None"];
                stdout := stdout w ++ [import_hint]; files := files w |}).
  assert (Himport : importPrinterList sniff_sample path_ListOfPrinters pandas_read_text
                      exn_str [] w = (Ret [], w1)).
  { unfold importPrinterList, bind, open_r, lift.
    destruct Hlist as [[Hfile ->]|[Hfile ->]]; rewrite Hfile; reflexivity. }
  match goal with |- _ = ?c ?w0 ∧ _ => set (rest := c); set (w2 := w0) end.
  assert (Hrun : run w = rest w2).
  { subst run rest. unfold script, bind at 1. rewrite Himport.
    unfold main, bind at 1. cbn [connectToPrinters for_enumerate ret].
    unfold bind at 1. rewrite updatePrinterStatus_loop. cbn [for_enumerate ret].
    reflexivity. }
  split; [exact Hrun|]. rewrite Hrun. subst rest. unfold bind.
  pose proof (getCommandList_frame verbose path_PrinterCommands pandas_read_csv
                sniff_sample w2) as (Hfiles & Hsent & _).
  destruct (getCommandList _ _ _ _ w2) as [[cl|e'] w3]; cbn [snd ret] in *;
    by rewrite Hfiles, Hsent.
Qed.

(** The instance of X21 for a run with neither a device list nor a
    command file: the run ends with the [FileNotFoundError] of the
    command file, after it has written the header. *)
Lemma script_without_a_list_witness :
  let run := script false "PrinterCommands.csv" Desk.read_commands_csv Desk.sniff_semicolon
               "ListOfPrinters.csv" Desk.read_printers Desk.exn_name in
  let w := Scenario.world Scenario.refused in
  fst (run w) = Raise (FileNotFoundError "PrinterCommands.csv")
  ∧ sent (snd (run w)) = []
  ∧ files (snd (run w)) = {[path_statusCsv := opcStatusFields]}.
Proof.
  intros run w.
  destruct (script_without_a_list false "PrinterCommands.csv" Desk.read_commands_csv
              Desk.sniff_semicolon "ListOfPrinters.csv" Desk.read_printers Desk.exn_name
              w (FileNotFoundError "ListOfPrinters.csv") (or_introl (conj eq_refl eq_refl)))
    as (Hrun & Hsent & Hfiles).
  split; [|split].
  - fold run in Hrun. rewrite Hrun. reflexivity.
  - exact Hsent.
  - exact Hfiles.
Defined.

(** ** The status files after a call *)

Section StatusFiles.

Variable verbose : bool.

(** The status that comes with a row is text. *)
Lemma opcStatusString_text (opc : OctoPrintClient.t) (pc st : PyVal) (row : string)
    (w w' : World) :
  opcStatusString opc pc w = (Ret (st, row), w') → ∃ s, st = PStr s.
Proof.
  unfold opcStatusString. intros H. destruct (truthy pc).
  - apply bind_Ret in H as (st0 & w1 & _ & H).
    apply bind_Ret in H as (j & w2 & Hj & H).
    destruct st0; try discriminate Hj.
    bind_inv H. injection H as <- _ _. eauto.
  - injection H as <- _ _. eauto.
Qed.

Lemma keeps_status_row (opc : OctoPrintClient.t) : keeps_files (status_row opc).
Proof.
  unfold status_row. apply keeps_bind; [apply keeps_isPrinterConnected|].
  intros pc. apply keeps_bind; [apply keeps_opcStatusString|].
  intros status. apply keeps_ret.
Qed.

(** An iteration raises where the row of its client cannot be built,
    and nowhere else; with the row it writes both files. *)
Lemma body_row (i : nat) (opc : OctoPrintClient.t) (w : World) :
  match status_row opc w with
  | (Raise e, w') => updatePrinterStatus_body verbose i opc w = (Raise e, w')
  | (Ret row, w') =>
      ∃ w2, updatePrinterStatus_body verbose i opc w = (Ret tt, w2)
            ∧ files w2
              = <[path_statusTxt i := opcStatusFields +:+ row]>
                  (<[path_statusCsv := default "" (files w !! path_statusCsv) +:+ row +:+ nl]>
                     (files w))
  end.
Proof.
  pose proof (keeps_status_row opc w) as Hkeep.
  unfold status_row, updatePrinterStatus_body, bind in *.
  destruct (isPrinterConnected opc w) as [[pc|e] w1]; [|done].
  destruct (opcStatusString opc pc w1) as [[[st row]|e] w2] eqn:Hrow; [|done].
  destruct (opcStatusString_text _ _ _ _ _ _ Hrow) as [text ->].
  cbn [ret snd] in *.
  unfold write, open_w, str_add, print, ret. cbn [files].
  rewrite lookup_insert_eq, insert_insert_eq, Hkeep.
  destruct verbose; eexists; (split; [reflexivity|]); reflexivity.
Qed.


End StatusFiles.
